(** * ibsforts-plugin-babel: the file / source-map pairing pipeline

    A shallow embedding of [src/index.ts] (the function-style entry points
    [babelTransform] and [babelTransformDebug]) and of [lib/index.js] (the
    [BabelPlugin] class), together with the properties the specification
    states about them.

    Modelling conventions.
    - A JavaScript string is a [string]; suffix tests and concatenation act on
      its code units.
    - A JavaScript value is a [Value]; numbers are IEEE doubles ([float]).
    - The Babel options object is a finite map from property names to values
      ([gmap string Value]); assignment is [insert], [delete] is [delete].
      Property enumeration order is not observable in the model.
    - Code that mutates the shared options object and may throw lives in the
      monad [M]: a state transformer over the options that also yields either
      a value or the exception thrown.  Mutations made before a throw persist.
    - A promise is observed only once settled ([Promise]).
    - [JSON.parse], [JSON.stringify] and [babel.transform] are collaborators
      the repository imports; they are the fields of the class [Host]. *)

From Stdlib Require Import PrimFloat.
From stdpp Require Import gmap strings list fin_maps.

Set Default Proof Using "Type".
Set Warnings "-register-all".

(** ** Strings *)

(** [String.prototype.endsWith(t)] with the default end position (and lodash's
    [_.endsWith], which has the same result for strings): the last
    [length t] code units of [s] are compared with [t]. *)
Definition endsWith (s t : string) : bool :=
  let len := String.length s in
  let searchLength := String.length t in
  if (len <? searchLength)%nat then false
  else String.eqb (String.substring (len - searchLength) searchLength s) t.

(** The regular expression [/^\# sourceMappingURL\=/] accepts exactly the
    strings that start with the literal ["# sourceMappingURL="]. *)
Definition isSourceMappingURLComment (comment : string) : bool :=
  String.prefix "# sourceMappingURL=" comment.

(** The line feed of the template literal [`\n//# sourceMappingURL=...`]. *)
Definition LF : string := String (Ascii.ascii_of_nat 10) "".

(** The path separator [/] (code unit 47). *)
Definition slash : Ascii.ascii := Ascii.ascii_of_nat 47.

(** Node's [path.basename(p)] (POSIX flavour, one argument): trailing
    slashes are ignored and the part after the last remaining slash is
    returned.  [basename_go] scans the code units from the right, as Node's
    loop does; [seen] says that a code unit other than a slash was met, and
    the accumulator holds the component collected so far. *)
Fixpoint basename_go (rs : list Ascii.ascii) (seen : bool) (acc : list Ascii.ascii)
  : list Ascii.ascii :=
  match rs with
  | [] => acc
  | c :: rs' =>
      if Ascii.eqb c slash
      then (if seen then acc else basename_go rs' false acc)
      else basename_go rs' true (c :: acc)
  end.

Definition basename (p : string) : string :=
  String.string_of_list_ascii (basename_go (rev (String.list_ascii_of_string p)) false []).

(** ** JavaScript values *)

Inductive Value : Type :=
| VUndefined
| VNull
| VBool (b : bool)
| VNumber (x : float)
| VString (s : string)
| VArray (xs : list Value)
| VObject (props : list (string * Value))
| VFunction (f : string -> bool)
| VHost (tag : string).

(** [VObject] lists the own properties of a plain object, each name once;
    [VFunction] is a predicate on strings (the only kind of function this
    pipeline creates); [VHost] stands for any other object the caller may
    have put in the options (plugin functions and the like). *)

(** ECMAScript [ToBoolean]. *)
Definition ToBoolean (v : Value) : bool :=
  match v with
  | VUndefined | VNull => false
  | VBool b => b
  | VNumber x => negb (is_zero x || is_nan x)
  | VString s => negb (String.eqb s "")
  | VArray _ | VObject _ | VFunction _ | VHost _ => true
  end.

Inductive Exn : Type :=
| JsonSyntaxError
| TypeError
| BabelError (msg : string)
| HookError (msg : string).

Fixpoint ownProperty (k : string) (props : list (string * Value)) : option Value :=
  match props with
  | [] => None
  | (k', v) :: props' => if String.eqb k' k then Some v else ownProperty k props'
  end.

(** [v.k] for a property name [k] that no built-in prototype defines (here
    [sourceRoot], [sources] and [file]): a [TypeError] on [undefined] and
    [null], the own property of a plain object, [undefined] otherwise. *)
Definition getProp (v : Value) (k : string) : Exn + Value :=
  match v with
  | VUndefined | VNull => inl TypeError
  | VObject props => inr (default VUndefined (ownProperty k props))
  | _ => inr VUndefined
  end.

(** [v[0]]: the first element of an array, the first code unit of a string,
    the own property ["0"] of a plain object. *)
Definition getIndex0 (v : Value) : Exn + Value :=
  match v with
  | VUndefined | VNull => inl TypeError
  | VArray xs => inr (default VUndefined (head xs))
  | VString (String c _) => inr (VString (String c ""))
  | VObject props => inr (default VUndefined (ownProperty "0" props))
  | _ => inr VUndefined
  end.

(** ** The OutputFile model (TypeScript's [ts.OutputFile]) *)

Record OutputFile : Type := mkOutputFile {
  name : string;
  text : string;
  writeByteOrderMark : bool
}.

(** ** The map locator *)

(** [findSourceMapFile] of [src/index.ts] and [lib/index.js]. *)
Definition findSourceMapFile (sourceFile : OutputFile) (files : list OutputFile)
  : option OutputFile :=
  if negb (endsWith (name sourceFile) ".map") then
    let mapFilename := name sourceFile +:+ ".map" in
    let mapFiles := List.filter (fun candidate => String.eqb (name candidate) mapFilename) files in
    if (0 <? length mapFiles)%nat then head mapFiles else None
  else None.

(** ** The shared options object and the effects on it *)

Abbreviation IOptions := (gmap string Value).

(** A computation that may assign to or delete properties of the shared
    options object and may throw. *)
Definition M (A : Type) : Type := IOptions -> (Exn + A) * IOptions.

Definition ret {A} (a : A) : M A := fun o => (inr a, o).

Definition bind {A B} (m : M A) (k : A -> M B) : M B :=
  fun o => match m o with
           | (inr a, o') => k a o'
           | (inl e, o') => (inl e, o')
           end.

Declare Scope js_scope.
Delimit Scope js_scope with js.
Notation "'let!' x ':=' m 'in' k" := (bind m (fun x => k))
  (at level 10, x name, m at level 100, k at level 200) : js_scope.
Notation "m '>>' k" := (bind m (fun _ => k))
  (at level 90, right associativity) : js_scope.
Local Open Scope js_scope.

(** A value or exception produced without touching the options. *)
Definition liftE {A} (r : Exn + A) : M A := fun o => (r, o).

(** [options.k = v]. *)
Definition assign (k : string) (v : Value) : M unit := fun o => (inr tt, <[k:=v]> o).

(** [delete options.k]. *)
Definition remove (k : string) : M unit := fun o => (inr tt, delete k o).

(** [options.k] read as an expression. *)
Definition read (k : string) : M Value :=
  fun o => (inr (default VUndefined (o !! k)), o).

(** The options object as it is handed to a callee. *)
Definition current : M IOptions := fun o => (inr o, o).

(** lodash's [_.extend(options, source)]: every own property of [source] is
    assigned, in order. *)
Fixpoint extend (source : list (string * Value)) : M unit :=
  match source with
  | [] => ret tt
  | (k, v) :: source' => assign k v >> extend source'
  end.

(** [Array.prototype.reduce(callback, initialValue)] for a callback that has
    effects. *)
Fixpoint reduce {A B} (callback : B -> A -> M B) (xs : list A) (acc : B) : M B :=
  match xs with
  | [] => ret acc
  | x :: xs' => let! acc' := callback acc x in reduce callback xs' acc'
  end.

(** ** The collaborators *)

Module babel.
(** What [babel.transform] returns: the generated code and the source map,
    which is [null] or [undefined] when none was generated. *)
Record BabelFileResult : Type := mkResult { code : string; map : Value }.
End babel.

Class Host : Type := {
  (** [JSON.parse]; [None] when it throws a [SyntaxError]. *)
  JSON_parse : string -> option Value;
  (** [JSON.stringify], which is applied to the generated map only. *)
  JSON_stringify : Value -> string;
  (** [babel.transform(code, options)]; [inl msg] when it throws. *)
  babel_transform : string -> IOptions -> string + babel.BabelFileResult
}.

(** ** Promises *)

Inductive Promise (A : Type) : Type :=
| Resolved (a : A)
| Rejected (e : Exn).
Arguments Resolved {A} a.
Arguments Rejected {A} e.

(** [Promise.all] over promises that have settled: all the values, or a
    rejection.  Which rejection wins when several promises reject depends,
    in JavaScript, on the order in which they settle, which a settled
    promise does not record; the value below takes them in array order,
    the order in which the per-file outcomes of a batch arise ([in_order]).
    The properties of the hooks of the debug entry point are stated for
    whichever rejecting hook it is. *)
Fixpoint Promise_all {A} (ps : list (Promise A)) : Promise (list A) :=
  match ps with
  | [] => Resolved []
  | Rejected e :: _ => Rejected e
  | Resolved a :: ps' =>
      match Promise_all ps' with
      | Resolved l => Resolved (a :: l)
      | Rejected e => Rejected e
      end
  end.

(** An asynchronous operation over the shared options: the promise it
    settles with and the options it leaves behind. *)
Definition Async (A : Type) : Type := IOptions -> Promise A * IOptions.

Definition settled {A} (p : Promise A) : Async A := fun o => (p, o).

(** [Promise.resolve().then(() => body)]: a throw in [body] rejects. *)
Definition Promise_resolve_then {A} (body : M A) : Async A :=
  fun o => match body o with
           | (inr a, o') => (Resolved a, o')
           | (inl e, o') => (Rejected e, o')
           end.

(** [p.then(a => k a)] where [k] returns a promise. *)
Definition then_ {A B} (p : Async A) (k : A -> Async B) : Async B :=
  fun o => match p o with
           | (Resolved a, o') => k a o'
           | (Rejected e, o') => (Rejected e, o')
           end.

(** ** The file transformer *)

Section Pipeline.
Context `{Host}.

(** [transformFile] of [src/index.ts] and [lib/index.js] (the two are the
    same statement for statement). *)
Definition transformFile (inFile : OutputFile) (files : list OutputFile)
  : M (list OutputFile) :=
  assign "filename" (VString (name inFile)) >>
  let! filename := read "filename" in
  assign "filenameRelative" filename >>
  let inMapFile := findSourceMapFile inFile files in
  let! inMap :=
    match inMapFile with
    | Some mapFile =>
        match JSON_parse (text mapFile) with
        | Some v => ret v
        | None => liftE (inl JsonSyntaxError)
        end
    | None => ret VUndefined
    end in
  (if ToBoolean inMap then
     assign "sourceMaps" (VBool true) >>
     let! sourceRoot := liftE (getProp inMap "sourceRoot") in
     assign "sourceRoot" sourceRoot >>
     let! sources := liftE (getProp inMap "sources") in
     let! source0 := liftE (getIndex0 sources) in
     assign "sourceFileName" source0 >>
     let! file := liftE (getProp inMap "file") in
     assign "sourceMapTarget" file >>
     assign "inputSourceMap" inMap
   else
     assign "sourceMaps" (VBool false) >>
     remove "sourceRoot" >>
     remove "sourceFileName" >>
     remove "sourceMapTarget" >>
     remove "inputSourceMap") >>
  let! options := current in
  let! result :=
    match babel_transform (text inFile) options with
    | inr r => ret r
    | inl msg => liftE (inl (BabelError msg))
    end in
  let fileName := basename (name inFile) in
  let sourceMappingURL :=
    if ToBoolean (babel.map result)
    then LF +:+ "//# sourceMappingURL=" +:+ fileName +:+ ".map" else "" in
  let code :=
    if ToBoolean (babel.map result)
    then babel.code result +:+ sourceMappingURL else babel.code result in
  let outSourceFile :=
    {| name := name inFile; text := code;
       writeByteOrderMark := writeByteOrderMark inFile |} in
  match inMapFile with
  | Some mapFile =>
      if ToBoolean (babel.map result) then
        let outMapFile :=
          {| name := name mapFile;
             text := JSON_stringify (babel.map result);
             writeByteOrderMark := writeByteOrderMark mapFile |} in
        ret [outSourceFile; outMapFile]
      else ret [outSourceFile]
  | None => ret [outSourceFile]
  end.

End Pipeline.

(** ** The batch orchestrator of [src/index.ts] *)

Module SrcIndex.
Section SrcIndex.
Context `{Host}.

Definition optionsOverride : list (string * Value) :=
  [ ("ast", VBool false);
    ("shouldPrintComment",
     VFunction (fun comment => negb (isSourceMappingURLComment comment))) ].

(** [babelTransform(inputFiles, options)]: the options object is the
    state the operation runs on. *)
Definition babelTransform (inputFiles : list OutputFile) : Async (list OutputFile) :=
  Promise_resolve_then
    (extend optionsOverride >>
     reduce (fun transformedFiles inputFile =>
               if endsWith (name inputFile) ".map"
               then ret transformedFiles
               else let! out := transformFile inputFile inputFiles in
                    ret (transformedFiles ++ out))
            inputFiles []).

(** [babelTransformDebug(files, options, debugInput, debugOutput)].  A hook
    is observed through the promise it returns. *)
Definition babelTransformDebug {A B} (files : list OutputFile)
    (debugInput : OutputFile -> Promise A) (debugOutput : OutputFile -> Promise B)
  : Async (list OutputFile) :=
  then_ (then_ (settled (Promise_all (List.map debugInput files)))
               (fun _ => babelTransform files))
        (fun transformedFiles =>
           then_ (settled (Promise_all (List.map debugOutput transformedFiles)))
                 (fun _ => settled (Resolved transformedFiles))).

End SrcIndex.
End SrcIndex.

(** ** The batch orchestrator of [lib/index.js]

    The methods of the class; the constructor (which installs the same two
    overrides as [SrcIndex.optionsOverride] and may load plugin modules) runs
    before them and is not part of the model: the methods are taken on any
    state of [this.babelOptions].  The model follows the JavaScript of
    [lib/index.js]; the TypeScript text of the class that comes with it has
    no [shouldDiscardFile] and drops every file that [shouldTransformFile]
    rejects. *)

Module BabelPlugin.
Section BabelPlugin.
Context `{Host}.

Definition shouldTransformFile (fileName : string) : bool :=
  endsWith fileName ".js" || endsWith fileName ".jsx".

Definition shouldDiscardFile (fileName : string) : bool :=
  endsWith fileName ".map".

(** [BabelPlugin.prototype.babelTransform(inputFiles)]: the state is the
    object held in [this.babelOptions]. *)
Definition babelTransform (inputFiles : list OutputFile) : Async (list OutputFile) :=
  Promise_resolve_then
    (reduce (fun transformedFiles inputFile =>
               if shouldTransformFile (name inputFile) then
                 let! out := transformFile inputFile inputFiles in
                 ret (transformedFiles ++ out)
               else if shouldDiscardFile (name inputFile) then
                 ret transformedFiles
               else
                 ret (transformedFiles ++ [inputFile]))
            inputFiles []).

(** [BabelPlugin.prototype.babelTransformDebug(files, debugInput, debugOutput)]. *)
Definition babelTransformDebug {A B} (files : list OutputFile)
    (debugInput : OutputFile -> Promise A) (debugOutput : OutputFile -> Promise B)
  : Async (list OutputFile) :=
  then_ (then_ (settled (Promise_all (List.map debugInput files)))
               (fun _ => babelTransform files))
        (fun transformedFiles =>
           then_ (settled (Promise_all (List.map debugOutput transformedFiles)))
                 (fun _ => settled (Resolved transformedFiles))).

End BabelPlugin.
End BabelPlugin.

(** ** Notions the properties are stated with *)

(** The locator in the words of the specification. *)
Definition locate_spec (source : OutputFile) (batch : list OutputFile) : option OutputFile :=
  if endsWith (name source) ".map" then None
  else List.find (fun c => String.eqb (name c) (name source +:+ ".map")) batch.

(** The last code unit of a string. *)
Fixpoint lastUnit (s : string) : option Ascii.ascii :=
  match s with
  | EmptyString => None
  | String c EmptyString => Some c
  | String _ s' => lastUnit s'
  end.

(** The three outcomes of the classification, in the words of the
    specification. *)
Inductive Outcome : Type := Transformed | Dropped | PassedThrough.

Definition classify_spec (fileName : string) : Outcome :=
  if endsWith fileName ".map" then Dropped
  else if endsWith fileName ".js" || endsWith fileName ".jsx" then Transformed
  else PassedThrough.

(** The promise a synchronous outcome settles. *)
Definition settle {A} (r : Exn + A) : Promise A :=
  match r with
  | inr a => Resolved a
  | inl e => Rejected e
  end.

(** Per-file outcomes put together in batch order: the concatenation of all
    the output lists, or the first rejection. *)
Definition in_order (pieces : list (Promise (list OutputFile))) : Promise (list OutputFile) :=
  match Promise_all pieces with
  | Resolved outs => Resolved (concat outs)
  | Rejected e => Rejected e
  end.

(** [v.k] where the access cannot throw. *)
Definition fieldOf (v : Value) (k : string) : Value :=
  match getProp v k with
  | inr x => x
  | inl _ => VUndefined
  end.

(** [v.sources[0]] where the access cannot throw. *)
Definition firstSource (v : Value) : Value :=
  match getIndex0 (fieldOf v "sources") with
  | inr x => x
  | inl _ => VUndefined
  end.

(** [inMap.sources[0]] can be evaluated: [sources] is neither [undefined]
    nor [null]. *)
Definition sourcesReadable (v : Value) : bool :=
  match getIndex0 (fieldOf v "sources") with
  | inr _ => true
  | inl _ => false
  end.

Definition isString (v : Value) : bool :=
  match v with
  | VString _ => true
  | _ => false
  end.

(** The map file shape of the specification: an object
    [{ sourceRoot?: string, sources: [string, ...], file: string }]. *)
Definition isSourceMapDocument (v : Value) : bool :=
  match v with
  | VObject props =>
      match ownProperty "sources" props with
      | Some (VArray (s :: ss)) => forallb isString (s :: ss)
      | _ => false
      end
      && match ownProperty "file" props with
         | Some (VString _) => true
         | _ => false
         end
      && match ownProperty "sourceRoot" props with
         | Some (VString _) | None => true
         | _ => false
         end
  | _ => false
  end.

(** The options object once [filename] and [filenameRelative] are set. *)
Definition namedOptions (o : IOptions) (fileName : string) : IOptions :=
  <["filenameRelative" := VString fileName]> (<["filename" := VString fileName]> o).

(** The options object handed to the transform for a file whose map was
    found and parsed to [inMap]. *)
Definition withMapOptions (o : IOptions) (fileName : string) (inMap : Value) : IOptions :=
  <["inputSourceMap" := inMap]>
    (<["sourceMapTarget" := fieldOf inMap "file"]>
       (<["sourceFileName" := firstSource inMap]>
          (<["sourceRoot" := fieldOf inMap "sourceRoot"]>
             (<["sourceMaps" := VBool true]> (namedOptions o fileName))))).

(** The options object handed to the transform for a file without a usable
    map: generation disabled, the four map fields absent. *)
Definition withoutMapOptions (o : IOptions) (fileName : string) : IOptions :=
  delete "inputSourceMap"
    (delete "sourceMapTarget"
       (delete "sourceFileName"
          (delete "sourceRoot"
             (<["sourceMaps" := VBool false]> (namedOptions o fileName))))).

(** The properties of the options object that [transformFile] writes. *)
Definition managedKeys : list string :=
  [ "filename"; "filenameRelative"; "sourceMaps"; "sourceRoot";
    "sourceFileName"; "sourceMapTarget"; "inputSourceMap" ].

(** Two options objects that differ at most in the managed properties. *)
Definition agree (o o' : IOptions) : Prop :=
  forall k, k ∉ managedKeys -> o !! k = o' !! k.

(** The reference comment appended after the code of [fileName]. *)
Definition mapReference (fileName : string) : string :=
  LF +:+ "//# sourceMappingURL=" +:+ basename fileName +:+ ".map".

(** The options object [babelTransform] of [src/index.ts] works on once the
    overrides are in place. *)
Definition overridden (o : IOptions) : IOptions :=
  (extend SrcIndex.optionsOverride o).2.

Section Derived.
Context `{Host}.

(** [inMapFile ? JSON.parse(inMapFile.text) : undefined]; [None] when the
    parse throws. *)
Definition inputMap (inMapFile : option OutputFile) : option Value :=
  match inMapFile with
  | Some mapFile => JSON_parse (text mapFile)
  | None => Some VUndefined
  end.

(** The files [transformFile] returns for the result [r] of the transform:
    the source file, followed by the regenerated map when an input map file
    was located and a map was produced. *)
Definition emitted (inFile : OutputFile) (inMapFile : option OutputFile)
    (r : babel.BabelFileResult) : list OutputFile :=
  let outSourceFile :=
    {| name := name inFile;
       text := if ToBoolean (babel.map r)
               then babel.code r +:+ mapReference (name inFile)
               else babel.code r;
       writeByteOrderMark := writeByteOrderMark inFile |} in
  match inMapFile with
  | Some mapFile =>
      if ToBoolean (babel.map r)
      then [ outSourceFile;
             {| name := name mapFile;
                text := JSON_stringify (babel.map r);
                writeByteOrderMark := writeByteOrderMark mapFile |} ]
      else [ outSourceFile ]
  | None => [ outSourceFile ]
  end.

(** The transform called on the text of [inFile] with the options [o']:
    what [transformFile] yields once the options are prepared. *)
Definition transformed (inFile : OutputFile) (inMapFile : option OutputFile)
    (o' : IOptions) : (Exn + list OutputFile) * IOptions :=
  match babel_transform (text inFile) o' with
  | inr r => (inr (emitted inFile inMapFile r), o')
  | inl msg => (inl (BabelError msg), o')
  end.

End Derived.

(** A reduce callback that runs [step] on the file and appends what it
    returns to the accumulator. *)
Definition collect (step : OutputFile -> M (list OutputFile))
    (acc : list OutputFile) (f : OutputFile) : M (list OutputFile) :=
  (let! out := step f in ret (acc ++ out))%js.

(** A step whose result depends on the options only through the properties
    that are not managed, and that changes managed properties only. *)
Definition isolated (step : OutputFile -> M (list OutputFile)) : Prop :=
  forall f (o o' : IOptions), agree o o' ->
    (step f o).1 = (step f o').1 /\ agree o (step f o).2.

Section Pieces.
Context `{Host}.

(** What one file of the batch does under [src/index.ts]. *)
Definition src_step (files : list OutputFile) (f : OutputFile) : M (list OutputFile) :=
  if endsWith (name f) ".map" then ret [] else transformFile f files.

(** What one file of the batch does under [lib/index.js]. *)
Definition plugin_step (files : list OutputFile) (f : OutputFile) : M (list OutputFile) :=
  if BabelPlugin.shouldTransformFile (name f) then transformFile f files
  else if BabelPlugin.shouldDiscardFile (name f) then ret []
  else ret [f].

(** The contribution of one file to the output of [src/index.ts]: map files
    give nothing, every other file is transformed on the options of the
    call, with the whole batch as the place to look for its map. *)
Definition src_piece (files : list OutputFile) (o : IOptions) (f : OutputFile)
  : Promise (list OutputFile) :=
  if endsWith (name f) ".map" then Resolved []
  else settle (transformFile f files (overridden o)).1.

(** The contribution of one file to the output of [lib/index.js], by the
    classification of the specification. *)
Definition plugin_piece (files : list OutputFile) (o : IOptions) (f : OutputFile)
  : Promise (list OutputFile) :=
  match classify_spec (name f) with
  | Transformed => settle (transformFile f files o).1
  | Dropped => Resolved []
  | PassedThrough => Resolved [f]
  end.

End Pieces.

(** Two outcomes one after the other. *)
Definition Promise_append (p q : Promise (list OutputFile)) : Promise (list OutputFile) :=
  match p, q with
  | Resolved a, Resolved b => Resolved (a ++ b)
  | Rejected e, _ => Rejected e
  | Resolved _, Rejected e => Rejected e
  end.

(** ** The two entry points side by side *)

(** [FunctionStyle] is [babelTransform(inputFiles, options)] of
    [src/index.ts]; [PluginClass] is [BabelPlugin.prototype.babelTransform]
    of [lib/index.js], whose options object is [this.babelOptions]. *)
Inductive EntryPoint : Type := FunctionStyle | PluginClass.

Section EntryPoints.
Context `{Host}.

Definition batchTransform (ep : EntryPoint) : list OutputFile -> Async (list OutputFile) :=
  match ep with
  | FunctionStyle => SrcIndex.babelTransform
  | PluginClass => BabelPlugin.babelTransform
  end.

Definition batchTransformDebug (ep : EntryPoint) {A B} (files : list OutputFile)
    (debugInput : OutputFile -> Promise A) (debugOutput : OutputFile -> Promise B)
  : Async (list OutputFile) :=
  match ep with
  | FunctionStyle => SrcIndex.babelTransformDebug files debugInput debugOutput
  | PluginClass => BabelPlugin.babelTransformDebug files debugInput debugOutput
  end.

(** The options object the files of a batch are transformed on. *)
Definition startOptions (ep : EntryPoint) (o : IOptions) : IOptions :=
  match ep with
  | FunctionStyle => overridden o
  | PluginClass => o
  end.

(** The entry point hands files of this name to [transformFile]. *)
Definition transforms (ep : EntryPoint) (fileName : string) : bool :=
  match ep with
  | FunctionStyle => negb (endsWith fileName ".map")
  | PluginClass => BabelPlugin.shouldTransformFile fileName
  end.

Definition piece (ep : EntryPoint) (files : list OutputFile) (o : IOptions) (f : OutputFile)
  : Promise (list OutputFile) :=
  match ep with
  | FunctionStyle => src_piece files o f
  | PluginClass => plugin_piece files o f
  end.

(** The contribution of one file as the three-way classification of the
    specification has it, for either entry point. *)
Definition claimed_piece (ep : EntryPoint) (files : list OutputFile) (o : IOptions)
    (f : OutputFile) : Promise (list OutputFile) :=
  match classify_spec (name f) with
  | Transformed => settle (transformFile f files (startOptions ep o)).1
  | Dropped => Resolved []
  | PassedThrough => Resolved [f]
  end.

End EntryPoints.

(** The options object handed to the transform, by the parsed input map. *)
Definition callOptions (o : IOptions) (fileName : string) (inMap : Value) : IOptions :=
  if ToBoolean inMap then withMapOptions o fileName inMap
  else withoutMapOptions o fileName.

(** A parsed input map with which the options can be prepared without a
    [TypeError]. *)
Definition usableMap (inMap : Value) : bool :=
  negb (ToBoolean inMap) || sourcesReadable inMap.

(** ** A host to run the examples on

    [demo_parse] knows a handful of JSON texts; [demo_stringify] prints a
    fixed text per kind of value; [demo_transform] wraps the code in a
    comment-free marker and generates a map exactly when the options ask
    for one, as Babel does. *)

Definition demo_map : Value :=
  VObject [ ("version", VNumber 3%float); ("file", VString "a.js");
            ("sourceRoot", VString ""); ("sources", VArray [VString "a.ts"]);
            ("mappings", VString "AAAA") ].

Definition demo_parse (s : string) : option Value :=
  if String.eqb s "null" then Some VNull
  else if String.eqb s "false" then Some (VBool false)
  else if String.eqb s "0" then Some (VNumber 0%float)
  else if String.eqb s "{}" then Some (VObject [])
  else if String.eqb s "MAP" then Some demo_map
  else None.

Definition demo_stringify (v : Value) : string :=
  match v with
  | VObject _ => "{...}"
  | VArray _ => "[...]"
  | VNull => "null"
  | _ => "?"
  end.

Definition demo_transform (code : string) (options : IOptions)
  : string + babel.BabelFileResult :=
  if String.eqb code "syntax error" then inl "SyntaxError: unexpected token"
  else inr {| babel.code := "T(" +:+ code +:+ ")";
              babel.map := match options !! "sourceMaps" with
                           | Some (VBool true) =>
                               VObject [("file", default VUndefined (options !! "sourceMapTarget"))]
                           | _ => VNull
                           end |}.

Definition demo_host : Host :=
  {| JSON_parse := demo_parse;
     JSON_stringify := demo_stringify;
     babel_transform := demo_transform |}.

Definition a_js : OutputFile := mkOutputFile "a.js" "let a" true.
Definition a_js_map : OutputFile := mkOutputFile "a.js.map" "MAP" false.
Definition b_js : OutputFile := mkOutputFile "b.js" "let b" false.
Definition c_js : OutputFile := mkOutputFile "c.js" "let c" false.
Definition c_js_map : OutputFile := mkOutputFile "c.js.map" "MAP" true.
Definition d_txt : OutputFile := mkOutputFile "d.txt" "notes" false.
Definition e_jsx : OutputFile := mkOutputFile "e.jsx" "<e/>" false.
Definition f_js_map : OutputFile := mkOutputFile "f.js.map" "MAP" false.
Definition a_js_map_null : OutputFile := mkOutputFile "a.js.map" "null" false.
Definition a_js_map_empty : OutputFile := mkOutputFile "a.js.map" "{}" false.
Definition a_js_map_broken : OutputFile := mkOutputFile "a.js.map" "{oops" false.

(** A transform that returns no map whatever the options say. *)
Definition mapless_transform (code : string) (options : IOptions)
  : string + babel.BabelFileResult :=
  inr {| babel.code := "T(" +:+ code +:+ ")"; babel.map := VUndefined |}.

Definition mapless_host : Host :=
  {| JSON_parse := demo_parse;
     JSON_stringify := demo_stringify;
     babel_transform := mapless_transform |}.

(** A transform that returns a map whatever the options say. *)
Definition mapping_transform (code : string) (options : IOptions)
  : string + babel.BabelFileResult :=
  inr {| babel.code := "T(" +:+ code +:+ ")";
         babel.map := VObject [("version", VNumber 3%float)] |}.

Definition mapping_host : Host :=
  {| JSON_parse := demo_parse;
     JSON_stringify := demo_stringify;
     babel_transform := mapping_transform |}.

(** * The rest of the code *)

(** ** The batch transform of the TypeScript text of the class

    The TypeScript text that comes with [lib/index.js] has the same
    [transformFile] and [shouldTransformFile]; its [babelTransform] has two
    branches only. *)

Module BabelPluginTs.
Section BabelPluginTs.
Context `{Host}.

(** [BabelPlugin.babelTransform(inputFiles)] of the TypeScript text. *)
Definition babelTransform (inputFiles : list OutputFile) : Async (list OutputFile) :=
  Promise_resolve_then
    (reduce (fun transformedFiles inputFile =>
               if BabelPlugin.shouldTransformFile (name inputFile) then
                 let! out := transformFile inputFile inputFiles in
                 ret (transformedFiles ++ out)
               else ret transformedFiles)
            inputFiles [])%js.

End BabelPluginTs.
End BabelPluginTs.

(** ** Loading plugins and building the plugin object ([lib/index.js]) *)

Module PluginSetup.

(** Node's module system as [loadBabelPlugin] sees it: [module.require] of
    this module and, when [module.parent] is set, the [require] of the
    parent.  A [require] yields [None] when it throws (the exception is
    caught and dropped by the caller) and is taken to give the same answer
    each time it is asked for the same identifier. *)
Record ModuleEnv : Type := {
  module_require : string -> option Value;
  module_parent : option (string -> option Value)
}.

Definition prefix : string := "babel-plugin-".

(** The variable [fromModule]: [None] once it is [null] (or an absent
    parent); otherwise the [require] of the module it points to, with a flag
    telling whether that module is [module] itself ([fromModule === module];
    a module is not its own parent). *)
Definition FromModule : Type := option (bool * (string -> option Value)).

(** The [while] loop of [loadBabelPlugin].  Each round of the loop takes one
    unit of [fuel]; the result is the value of [plugin] when the loop is
    left, and [None] when the fuel runs out first. *)
Fixpoint loadBabelPlugin_loop (fuel : nat) (env : ModuleEnv) (id : string)
    (plugin : Value) (fromModule : FromModule) : option Value :=
  match fromModule with
  | Some (isModule, require) =>
      if ToBoolean plugin then Some plugin
      else
        match fuel with
        | O => None
        | S fuel' =>
            match require id with
            | Some v => loadBabelPlugin_loop fuel' env id v fromModule
            | None =>
                let idHasPrefix := String.prefix prefix id in
                let plugin1 :=
                  if negb idHasPrefix then
                    match require (prefix +:+ id) with
                    | Some v => v
                    | None => plugin
                    end
                  else plugin in
                let fromModule1 :=
                  if negb (ToBoolean plugin1) then
                    if isModule
                    then option_map (fun r => (false, r)) (module_parent env)
                    else None
                  else fromModule in
                loadBabelPlugin_loop fuel' env id plugin1 fromModule1
            end
        end
  | None => Some plugin
  end.

(** [loadBabelPlugin(id)]: the plugin, or the message of the [Error] it
    throws; [None] when the loop does not end within [fuel] rounds. *)
Definition loadBabelPlugin (fuel : nat) (env : ModuleEnv) (id : string)
  : option (string + Value) :=
  match loadBabelPlugin_loop fuel env id VNull (Some (true, module_require env)) with
  | None => None
  | Some plugin =>
      if ToBoolean plugin then Some (inr plugin)
      else Some (inl ("Unable to load Babel plugin '" +:+ id +:+ "'"))
  end.

(** What the constructor can throw. *)
Inductive SetupExn : Type :=
| SetupTypeError
| SetupError (msg : string).

(** [plugins.map(p => typeof p === 'string' ? loadBabelPlugin(p) : p)]: the
    elements are visited in order and the first throw ends the visit. *)
Fixpoint loadPlugins (fuel : nat) (env : ModuleEnv) (plugins : list Value)
  : option (string + list Value) :=
  match plugins with
  | [] => Some (inr [])
  | p :: plugins' =>
      match (match p with
             | VString id => loadBabelPlugin fuel env id
             | _ => Some (inr p)
             end) with
      | None => None
      | Some (inl msg) => Some (inl msg)
      | Some (inr v) =>
          match loadPlugins fuel env plugins' with
          | None => None
          | Some (inl msg) => Some (inl msg)
          | Some (inr vs) => Some (inr (v :: vs))
          end
      end
  end.

Definition overrides : list (string * Value) :=
  [ ("ast", VBool false);
    ("shouldPrintComment",
     VFunction (fun comment => negb (isSourceMappingURLComment comment))) ].

(** [new BabelPlugin(enableNodeModuleResolution, babelOptions)]: the options
    object the plugin holds afterwards, or what the constructor throws.
    [babel.IOptions] makes [plugins] an array when it is present; reading
    [.map] off anything else is a [TypeError]. *)
Definition new_BabelPlugin (fuel : nat) (env : ModuleEnv)
    (enableNodeModuleResolution : Value) (babelOptions : IOptions)
  : option (SetupExn + IOptions) :=
  if ToBoolean enableNodeModuleResolution then
    match babelOptions !! "plugins" with
    | Some (VArray plugins) =>
        match loadPlugins fuel env plugins with
        | None => None
        | Some (inl msg) => Some (inl (SetupError msg))
        | Some (inr loaded) =>
            Some (inr (extend overrides (<["plugins" := VArray loaded]> babelOptions)).2)
        end
    | _ => Some (inl SetupTypeError)
    end
  else Some (inr (extend overrides babelOptions).2).

(** [createPlugin(options)]: [_.omit] copies the options without the one key
    Babel does not know, and the copy becomes the plugin's options object. *)
Definition createPlugin (fuel : nat) (env : ModuleEnv) (options : IOptions)
  : option (SetupExn + IOptions) :=
  let babelOptions := delete "enableNodeModuleResolution" options in
  new_BabelPlugin fuel env
    (default VUndefined (options !! "enableNodeModuleResolution")) babelOptions.

End PluginSetup.

(** ** Notions the further properties are stated with *)

(** A list of output files in which source files come alone or are followed
    by their map. *)
Inductive paired : list OutputFile -> Prop :=
| paired_nil : paired []
| paired_alone (s : OutputFile) (rest : list OutputFile) :
    endsWith (name s) ".map" = false -> paired rest -> paired (s :: rest)
| paired_with_map (s m : OutputFile) (rest : list OutputFile) :
    endsWith (name s) ".map" = false -> name m = name s +:+ ".map" ->
    paired rest -> paired (s :: m :: rest).

(** A promise that resolved. *)
Definition isResolved {A} (p : Promise A) : bool :=
  match p with
  | Resolved _ => true
  | Rejected _ => false
  end.

Section TsPieces.
Context `{Host}.

(** What one file of the batch does under the TypeScript text of the class. *)
Definition ts_step (files : list OutputFile) (f : OutputFile) : M (list OutputFile) :=
  if BabelPlugin.shouldTransformFile (name f) then transformFile f files else ret [].

(** The contribution of one file to the output of the TypeScript text of the
    class. *)
Definition ts_piece (files : list OutputFile) (o : IOptions) (f : OutputFile)
  : Promise (list OutputFile) :=
  if BabelPlugin.shouldTransformFile (name f)
  then settle (transformFile f files o).1 else Resolved [].

End TsPieces.

(** The identifiers [loadBabelPlugin] asks a module for, in order. *)
Definition candidates (id : string) : list string :=
  if String.prefix PluginSetup.prefix id then [id]
  else [id; PluginSetup.prefix +:+ id].

(** The first identifier of the list that a [require] resolves. *)
Fixpoint firstLoaded (require : string -> option Value) (ids : list string)
  : option Value :=
  match ids with
  | [] => None
  | id :: ids' =>
      match require id with
      | Some v => Some v
      | None => firstLoaded require ids'
      end
  end.

(** Plugin resolution as an ordered search: this module first, then its
    parent, each asked for the bare identifier and then, when the identifier
    has no prefix, for the prefixed one. *)
Definition resolve_spec (env : PluginSetup.ModuleEnv) (id : string) : string + Value :=
  let failure := inl ("Unable to load Babel plugin '" +:+ id +:+ "'") in
  match firstLoaded (PluginSetup.module_require env) (candidates id) with
  | Some v => inr v
  | None =>
      match PluginSetup.module_parent env with
      | Some parent_require =>
          match firstLoaded parent_require (candidates id) with
          | Some v => inr v
          | None => failure
          end
      | None => failure
      end
  end.

(** Every module that loads exports a truthy value (as a plugin function
    is). *)
Definition truthyExports (env : PluginSetup.ModuleEnv) : Prop :=
  (forall id v, PluginSetup.module_require env id = Some v -> ToBoolean v = true) /\
  (forall parent_require, PluginSetup.module_parent env = Some parent_require ->
     forall id v, parent_require id = Some v -> ToBoolean v = true).

(** A module environment to run the examples on: this module resolves
    [babel-plugin-foo], its parent resolves [babel-plugin-bar] and [baz]. *)
Definition demo_env : PluginSetup.ModuleEnv :=
  {| PluginSetup.module_require :=
       fun id => if String.eqb id "babel-plugin-foo" then Some (VHost "foo") else None;
     PluginSetup.module_parent :=
       Some (fun id => if String.eqb id "babel-plugin-bar" then Some (VHost "bar")
                       else if String.eqb id "baz" then Some (VHost "baz")
                       else None) |}.

(** A module environment in which the module [zero] loads and exports [0]. *)
Definition zero_env : PluginSetup.ModuleEnv :=
  {| PluginSetup.module_require :=
       fun id => if String.eqb id "zero" then Some (VNumber 0%float) else None;
     PluginSetup.module_parent := None |}.

(** What loading leaves of one element of [plugins]: a string is replaced by
    the plugin the search resolves for it, anything else is kept. *)
Definition loadedAs (env : PluginSetup.ModuleEnv) (p v : Value) : Prop :=
  match p with
  | VString id => resolve_spec env id = inr v
  | _ => v = p
  end.

Section Life.
Context `{Host}.

(** The options object of a plugin after the batches of [batches] have been
    run through its [babelTransform], one invocation after the other. *)
Definition afterInvocations (batches : list (list OutputFile)) (o : IOptions) : IOptions :=
  fold_left (fun o' files => (BabelPlugin.babelTransform files o').2) batches o.

End Life.

(** Options that ask for node module resolution of three plugins, one of
    them given as a value rather than by name. *)
Definition demo_options : IOptions :=
  <["plugins" := VArray [VString "foo"; VHost "inline"; VString "baz"]]>
    (<["enableNodeModuleResolution" := VBool true]>
       (<["babelrc" := VBool false]> ∅)).

(** The same without node module resolution, and with values for [ast] and
    [sourceRoot] that the pipeline overwrites. *)
Definition plain_options : IOptions :=
  <["plugins" := VArray [VString "foo"]]>
    (<["ast" := VBool true]> (<["sourceRoot" := VString "stale"]> ∅)).

(** An input hook that rejects for [b.js] and resolves otherwise. *)
Definition demo_hook (f : OutputFile) : Promise unit :=
  if String.eqb (name f) "b.js" then Rejected (HookError "disk full") else Resolved tt.

(** An output hook that rejects for every map file and resolves otherwise. *)
Definition demo_map_hook (f : OutputFile) : Promise unit :=
  if endsWith (name f) ".map" then Rejected (HookError "read only") else Resolved tt.

(** The options object of the plugin [createPlugin] builds from
    [demo_options]. *)
Definition demo_plugin_options : IOptions :=
  match PluginSetup.createPlugin 2 demo_env demo_options with
  | Some (inr babelOptions) => babelOptions
  | _ => ∅
  end.

(** * Properties *)

(** ** The model runs *)

Example endsWith_js : endsWith "lib/a.js" ".js" = true.
Proof. reflexivity. Qed.

Example endsWith_short : endsWith "js" ".js" = false.
Proof. reflexivity. Qed.

Example basename_dir : basename "lib/sub/a.js" = "a.js".
Proof. reflexivity. Qed.

Example basename_trailing : basename "lib/sub//" = "sub".
Proof. reflexivity. Qed.

Example basename_plain : basename "a.js" = "a.js".
Proof. reflexivity. Qed.

Example run_pair :
  (SrcIndex.babelTransform (H := demo_host) [a_js; a_js_map] ∅).1
  = Resolved [ mkOutputFile "a.js" ("T(let a)" +:+ LF +:+ "//# sourceMappingURL=a.js.map") true;
               mkOutputFile "a.js.map" "{...}" false ].
Proof. vm_compute. reflexivity. Qed.

Example run_plugin_mixed :
  (BabelPlugin.babelTransform (H := demo_host) [d_txt; a_js_map; b_js] ∅).1
  = Resolved [ d_txt; mkOutputFile "b.js" "T(let b)" false ].
Proof. vm_compute. reflexivity. Qed.

(** ** Strings *)

Lemma app_cons (c : Ascii.ascii) (s t : string) : String c s +:+ t = String c (s +:+ t).
Proof. reflexivity. Qed.

Lemma app_empty (t : string) : "" +:+ t = t.
Proof. reflexivity. Qed.

Lemma length_app (s t : string) :
  String.length (s +:+ t) = String.length s + String.length t.
Proof.
  induction s as [|c s IH]; [done|].
  rewrite app_cons. simpl. by rewrite IH.
Qed.

Lemma substring_0_length (t : string) : String.substring 0 (String.length t) t = t.
Proof. induction t as [|c t IH]; simpl; [done|]. by rewrite IH. Qed.

Lemma substring_app_suffix (p t : string) :
  String.substring (String.length p) (String.length t) (p +:+ t) = t.
Proof.
  induction p as [|c p IH]; [apply substring_0_length|].
  rewrite app_cons. simpl. apply IH.
Qed.

Lemma substring_split (n : nat) (s : string) :
  n <= String.length s ->
  s = String.substring 0 n s +:+ String.substring n (String.length s - n) s.
Proof.
  revert s. induction n as [|n IH]; intros s Hn.
  - rewrite Nat.sub_0_r, substring_0_length. by destruct s.
  - destruct s as [|c s]; simpl in *; [lia|].
    rewrite app_cons. f_equal. apply IH. lia.
Qed.

Lemma endsWith_iff (s t : string) :
  endsWith s t = true <-> exists p, s = p +:+ t.
Proof.
  unfold endsWith. split.
  - destruct (Nat.ltb_spec (String.length s) (String.length t)) as [|Hle]; [done|].
    intros Heq%String.eqb_eq.
    exists (String.substring 0 (String.length s - String.length t) s).
    pose proof (substring_split (String.length s - String.length t) s) as Hs.
    replace (String.length s - (String.length s - String.length t))
      with (String.length t) in Hs by lia.
    rewrite Heq in Hs. apply Hs. lia.
  - intros [p ->]. rewrite length_app.
    destruct (Nat.ltb_spec (String.length p + String.length t) (String.length t)); [lia|].
    replace (String.length p + String.length t - String.length t) with (String.length p) by lia.
    rewrite substring_app_suffix. apply String.eqb_refl.
Qed.


Lemma lastUnit_app (p t : string) : t <> "" -> lastUnit (p +:+ t) = lastUnit t.
Proof.
  intros Ht. induction p as [|c p IH]; [done|].
  rewrite app_cons. simpl. rewrite IH.
  destruct (p +:+ t) eqn:E; [|done].
  destruct p; [by rewrite app_empty in E|by rewrite app_cons in E].
Qed.

Lemma endsWith_lastUnit (s t : string) :
  t <> "" -> endsWith s t = true -> lastUnit s = lastUnit t.
Proof. intros Ht [p ->]%endsWith_iff. by apply lastUnit_app. Qed.

Lemma app_map_neq (s : string) : s +:+ ".map" <> s.
Proof. intros E%(f_equal String.length). rewrite length_app in E. simpl in E. lia. Qed.

(** ** The map locator *)

Section Locator.
Variables (A : Type) (P : A -> bool).

Lemma filter_none_before (pre : list A) (m : A) (post : list A) :
  Forall (fun x => P x = false) pre -> P m = true ->
  List.filter P (pre ++ m :: post) = m :: List.filter P post.
Proof.
  induction 1 as [|x pre Hx _ IH]; intros Hm; simpl.
  - by rewrite Hm.
  - rewrite Hx. by apply IH.
Qed.

Lemma filter_first_split (l : list A) :
  match List.filter P l with
  | m :: _ => exists pre post,
      l = pre ++ m :: post /\ P m = true /\ Forall (fun x => P x = false) pre
  | [] => Forall (fun x => P x = false) l
  end.
Proof.
  induction l as [|x l IH]; simpl; [constructor|].
  destruct (P x) eqn:Hx.
  - exists [], l. by repeat split.
  - destruct (List.filter P l) as [|m rest].
    + by constructor.
    + destruct IH as (pre & post & -> & Hm & Hpre).
      exists (x :: pre), post. repeat split; [done|]. by constructor.
Qed.

End Locator.


Lemma find_head_filter {A} (P : A -> bool) (l : list A) :
  List.find P l = head (List.filter P l).
Proof. induction l as [|x l IH]; simpl; [done|]. by destruct (P x). Qed.

Lemma findSourceMapFile_locate_spec (source : OutputFile) (files : list OutputFile) :
  findSourceMapFile source files = locate_spec source files.
Proof.
  unfold findSourceMapFile, locate_spec.
  destruct (endsWith (name source) ".map"); simpl; [done|].
  rewrite find_head_filter.
  by destruct (List.filter _ files).
Qed.

(** C6.  The map locator returns absent when the name of the source file ends
    with [.map]; otherwise it returns the first element of the batch, in batch
    order, whose name is the source name followed by [.map], and absent
    exactly when the batch has no element of that name.  It is a function of
    the source file and the batch alone: it neither reads nor changes the
    options and calls no collaborator. *)
Theorem findSourceMapFile_first_match (source : OutputFile) (files : list OutputFile) :
  (endsWith (name source) ".map" = true -> findSourceMapFile source files = None) /\
  (endsWith (name source) ".map" = false ->
     (forall m, findSourceMapFile source files = Some m <->
        exists pre post, files = pre ++ m :: post /\
          name m = name source +:+ ".map" /\
          Forall (fun c => name c <> name source +:+ ".map") pre) /\
     (findSourceMapFile source files = None <->
        Forall (fun c => name c <> name source +:+ ".map") files)).
Proof.
  unfold findSourceMapFile. split; intros ->; simpl; [done|].
  set (P := fun candidate => String.eqb (name candidate) (name source +:+ ".map")).
  assert (HP : forall c, P c = false <-> name c <> name source +:+ ".map").
  { intros c. unfold P. rewrite <- String.eqb_neq. done. }
  assert (HF : forall l, Forall (fun x => P x = false) l <->
                         Forall (fun c => name c <> name source +:+ ".map") l).
  { intros l. apply Forall_iff. intros c. apply HP. }
  split.
  - intros m. split.
    + pose proof (filter_first_split _ P files) as Hs.
      destruct (List.filter P files) as [|m' rest]; simpl; [done|].
      intros [= ->]. destruct Hs as (pre & post & -> & Hm & Hpre).
      exists pre, post. repeat split; [by apply String.eqb_eq|by apply HF].
    + intros (pre & post & -> & Hm & Hpre).
      rewrite filter_none_before; [done|by apply HF|by apply String.eqb_eq].
  - pose proof (filter_first_split _ P files) as Hs.
    destruct (List.filter P files) as [|m' rest] eqn:Hf; simpl.
    + split; [intros _; by apply HF|done].
    + split; [done|]. intros Hall%HF.
      destruct Hs as (pre & post & -> & Hm & _).
      apply Forall_app in Hall as [_ Hall]. inversion Hall; subst. congruence.
Qed.

Lemma findSourceMapFile_first_match_witness :
  findSourceMapFile a_js [b_js; a_js_map; a_js; a_js_map] = Some a_js_map /\
  findSourceMapFile a_js [b_js; a_js] = None /\
  findSourceMapFile a_js_map [a_js_map; mkOutputFile "a.js.map.map" "" false] = None.
Proof.
  pose proof (findSourceMapFile_first_match a_js [b_js; a_js_map; a_js; a_js_map]) as [_ H1].
  pose proof (findSourceMapFile_first_match a_js [b_js; a_js]) as [_ H2].
  pose proof (findSourceMapFile_first_match a_js_map
                [a_js_map; mkOutputFile "a.js.map.map" "" false]) as [H3 _].
  split; [|split].
  - apply (proj1 (H1 eq_refl)). exists [b_js], [a_js; a_js_map].
    repeat split. repeat constructor; discriminate.
  - apply (proj2 (H2 eq_refl)). repeat constructor; discriminate.
  - apply H3. reflexivity.
Defined.

(** ** The options object *)

Lemma agree_refl (o : IOptions) : agree o o.
Proof. by intros k _. Qed.

Lemma agree_sym (o o' : IOptions) : agree o o' -> agree o' o.
Proof. intros Ha k Hk. symmetry. by apply Ha. Qed.

Lemma agree_trans (o1 o2 o3 : IOptions) : agree o1 o2 -> agree o2 o3 -> agree o1 o3.
Proof. intros H12 H23 k Hk. rewrite H12 by done. by apply H23. Qed.

Lemma agree_insert (k : string) (v : Value) (o o' : IOptions) :
  agree o o' -> agree (<[k:=v]> o) (<[k:=v]> o').
Proof.
  intros Ha j Hj. rewrite !lookup_insert. case_decide; [done|]. by apply Ha.
Qed.

Lemma agree_delete (k : string) (o o' : IOptions) :
  agree o o' -> agree (delete k o) (delete k o').
Proof.
  intros Ha j Hj. rewrite !lookup_delete. case_decide; [done|]. by apply Ha.
Qed.

Lemma agree_insert_managed (k : string) (v : Value) (o : IOptions) :
  k ∈ managedKeys -> agree o (<[k:=v]> o).
Proof.
  intros Hk j Hj. rewrite lookup_insert_ne; [done|]. by intros ->.
Qed.

Lemma agree_delete_managed (k : string) (o : IOptions) :
  k ∈ managedKeys -> agree o (delete k o).
Proof.
  intros Hk j Hj. rewrite lookup_delete_ne; [done|]. by intros ->.
Qed.

Lemma agree_eq (o o' : IOptions) :
  agree o o' -> Forall (fun k => o !! k = o' !! k) managedKeys -> o = o'.
Proof.
  intros Ha Hm. apply map_eq. intros k.
  destruct (decide (k ∈ managedKeys)) as [Hk|Hk]; [|by apply Ha].
  rewrite Forall_forall in Hm. by apply Hm.
Qed.

Lemma agree_namedOptions (o o' : IOptions) (n : string) :
  agree o o' -> agree (namedOptions o n) (namedOptions o' n).
Proof. intros Ha. unfold namedOptions. by do 2 apply agree_insert. Qed.

Lemma withMapOptions_agree (o o' : IOptions) (n : string) (v : Value) :
  agree o o' -> withMapOptions o n v = withMapOptions o' n v.
Proof.
  intros Ha. apply agree_eq.
  - unfold withMapOptions. do 5 apply agree_insert. by apply agree_namedOptions.
  - unfold withMapOptions, namedOptions, managedKeys.
    repeat constructor; by simplify_map_eq.
Qed.

Lemma withoutMapOptions_agree (o o' : IOptions) (n : string) :
  agree o o' -> withoutMapOptions o n = withoutMapOptions o' n.
Proof.
  intros Ha. apply agree_eq.
  - unfold withoutMapOptions. do 4 apply agree_delete. apply agree_insert.
    by apply agree_namedOptions.
  - unfold withoutMapOptions, namedOptions, managedKeys.
    repeat constructor; by simplify_map_eq.
Qed.

(** ** The file transformer, case by case *)

Lemma getProp_truthy (v : Value) (k : string) :
  ToBoolean v = true -> getProp v k = inr (fieldOf v k).
Proof. unfold fieldOf. by destruct v. Qed.

Section TransformFile.
Context `{Host}.

Lemma transformFile_parse_error (f : OutputFile) (files : list OutputFile) (o : IOptions) :
  inputMap (findSourceMapFile f files) = None ->
  transformFile f files o = (inl JsonSyntaxError, namedOptions o (name f)).
Proof.
  unfold inputMap, transformFile, bind, assign, read, liftE, ret. simpl.
  rewrite lookup_insert_eq. simpl.
  destruct (findSourceMapFile f files) as [m|]; [|done].
  by intros ->.
Qed.

Lemma transformFile_disabled (f : OutputFile) (files : list OutputFile) (o : IOptions)
    (v : Value) :
  inputMap (findSourceMapFile f files) = Some v -> ToBoolean v = false ->
  transformFile f files o
  = transformed f (findSourceMapFile f files) (withoutMapOptions o (name f)).
Proof.
  unfold inputMap, transformFile, transformed, emitted, mapReference,
    bind, assign, remove, read, current, liftE, ret. simpl.
  rewrite lookup_insert_eq. simpl.
  destruct (findSourceMapFile f files) as [m|].
  - intros -> Hv. simpl. rewrite Hv. simpl.
    fold (namedOptions o (name f)). fold (withoutMapOptions o (name f)).
    destruct (babel_transform _ _) as [msg|r]; simpl; [done|].
    by destruct (ToBoolean (babel.map r)).
  - intros [= <-] _. simpl.
    fold (namedOptions o (name f)). fold (withoutMapOptions o (name f)).
    destruct (babel_transform _ _) as [msg|r]; simpl; [done|].
    by destruct (ToBoolean (babel.map r)).
Qed.

Lemma transformFile_enabled (f : OutputFile) (files : list OutputFile) (o : IOptions)
    (v : Value) :
  inputMap (findSourceMapFile f files) = Some v -> ToBoolean v = true ->
  sourcesReadable v = true ->
  transformFile f files o
  = transformed f (findSourceMapFile f files) (withMapOptions o (name f) v).
Proof.
  unfold inputMap, transformFile, transformed, emitted, mapReference,
    bind, assign, remove, read, current, liftE, ret. simpl.
  rewrite lookup_insert_eq. simpl.
  destruct (findSourceMapFile f files) as [m|]; [|by intros [= <-]].
  intros -> Hv Hs. simpl. rewrite Hv. simpl.
  rewrite !getProp_truthy by done. simpl.
  unfold sourcesReadable in Hs. unfold withMapOptions, firstSource, namedOptions.
  destruct (getIndex0 (fieldOf v "sources")) as [|s0]; [done|]. simpl.
  destruct (babel_transform _ _) as [msg|r]; simpl; [done|].
  by destruct (ToBoolean (babel.map r)).
Qed.

Lemma transformFile_type_error (f : OutputFile) (files : list OutputFile) (o : IOptions)
    (v : Value) :
  inputMap (findSourceMapFile f files) = Some v -> ToBoolean v = true ->
  sourcesReadable v = false ->
  transformFile f files o
  = (inl TypeError,
     <["sourceRoot" := fieldOf v "sourceRoot"]>
       (<["sourceMaps" := VBool true]> (namedOptions o (name f)))).
Proof.
  unfold inputMap, transformFile, bind, assign, remove, read, current, liftE, ret. simpl.
  rewrite lookup_insert_eq. simpl.
  destruct (findSourceMapFile f files) as [m|]; [|by intros [= <-]].
  intros -> Hv Hs. simpl. rewrite Hv. simpl.
  rewrite !getProp_truthy by done. simpl.
  unfold sourcesReadable in Hs.
  destruct (fieldOf v "sources") as [| | | |[|c s]| | | |]; simpl in *; done.
Qed.

End TransformFile.

Section Isolation.
Context `{Host}.

Lemma inputMap_cases (f : OutputFile) (files : list OutputFile) :
  inputMap (findSourceMapFile f files) = None \/
  (exists v, inputMap (findSourceMapFile f files) = Some v /\ ToBoolean v = false) \/
  (exists v, inputMap (findSourceMapFile f files) = Some v /\ ToBoolean v = true /\
             sourcesReadable v = true) \/
  (exists v, inputMap (findSourceMapFile f files) = Some v /\ ToBoolean v = true /\
             sourcesReadable v = false).
Proof.
  destruct (inputMap _) as [v|]; [|by left]. right.
  destruct (ToBoolean v) eqn:Hv; [|left; by exists v]. right.
  destruct (sourcesReadable v) eqn:Hs; [left|right]; by exists v.
Qed.

Lemma transformed_options (f : OutputFile) (mf : option OutputFile) (o' : IOptions) :
  (transformed f mf o').2 = o'.
Proof. unfold transformed. by destruct (babel_transform _ _). Qed.

Lemma agree_withoutMapOptions (o : IOptions) (n : string) :
  agree o (withoutMapOptions o n).
Proof.
  unfold withoutMapOptions, namedOptions.
  repeat (eapply agree_trans;
    [|first [apply agree_delete_managed|apply agree_insert_managed];
      unfold managedKeys; set_solver]).
  apply agree_refl.
Qed.

Lemma agree_withMapOptions (o : IOptions) (n : string) (v : Value) :
  agree o (withMapOptions o n v).
Proof.
  unfold withMapOptions, namedOptions.
  repeat (eapply agree_trans;
    [|apply agree_insert_managed; unfold managedKeys; set_solver]).
  apply agree_refl.
Qed.

Lemma agree_namedOptions_frame (o : IOptions) (n : string) :
  agree o (namedOptions o n).
Proof.
  unfold namedOptions.
  repeat (eapply agree_trans;
    [|apply agree_insert_managed; unfold managedKeys; set_solver]).
  apply agree_refl.
Qed.

Lemma transformFile_frame (f : OutputFile) (files : list OutputFile) (o : IOptions) :
  agree o (transformFile f files o).2.
Proof.
  destruct (inputMap_cases f files)
    as [Hn|[(v & Hi & Hv)|[(v & Hi & Hv & Hs)|(v & Hi & Hv & Hs)]]].
  - rewrite transformFile_parse_error by done. apply agree_namedOptions_frame.
  - rewrite (transformFile_disabled _ _ _ v), transformed_options by done.
    apply agree_withoutMapOptions.
  - rewrite (transformFile_enabled _ _ _ v), transformed_options by done.
    apply agree_withMapOptions.
  - rewrite (transformFile_type_error _ _ _ v) by done. cbn [snd].
    repeat (eapply agree_trans;
      [|apply agree_insert_managed; unfold managedKeys; set_solver]).
    apply agree_refl.
Qed.

Lemma transformFile_agree (f : OutputFile) (files : list OutputFile) (o o' : IOptions) :
  agree o o' -> (transformFile f files o).1 = (transformFile f files o').1.
Proof.
  intros Ha.
  destruct (inputMap_cases f files)
    as [Hn|[(v & Hi & Hv)|[(v & Hi & Hv & Hs)|(v & Hi & Hv & Hs)]]].
  - by rewrite !transformFile_parse_error.
  - rewrite !(transformFile_disabled _ _ _ v) by done.
    by rewrite (withoutMapOptions_agree o o').
  - rewrite !(transformFile_enabled _ _ _ v) by done.
    by rewrite (withMapOptions_agree o o').
  - by rewrite !(transformFile_type_error _ _ _ v).
Qed.

Lemma transformFile_context (f : OutputFile) (files files' : list OutputFile) (o : IOptions) :
  findSourceMapFile f files = findSourceMapFile f files' ->
  transformFile f files o = transformFile f files' o.
Proof. intros Hc. unfold transformFile. by rewrite Hc. Qed.

Lemma transformFile_isolated (files : list OutputFile) :
  isolated (fun f => transformFile f files).
Proof.
  intros f o o' Ha. split; [by apply transformFile_agree|apply transformFile_frame].
Qed.

(** ** Folding over the batch *)

Lemma reduce_ext {A B} (cb cb' : B -> A -> M B) (xs : list A) (acc : B) (o : IOptions) :
  (forall acc x o, cb acc x o = cb' acc x o) ->
  reduce cb xs acc o = reduce cb' xs acc o.
Proof.
  intros Hcb. revert acc o. induction xs as [|x xs IH]; intros acc o; simpl; [done|].
  unfold bind. rewrite Hcb. destruct (cb' acc x o) as [[e|acc'] o1]; [done|]. apply IH.
Qed.

Lemma reduce_collect (step : OutputFile -> M (list OutputFile)) (xs : list OutputFile) :
  isolated step ->
  forall (acc : list OutputFile) (o0 o : IOptions), agree o0 o ->
    settle (reduce (collect step) xs acc o).1
    = match in_order (List.map (fun f => settle (step f o0).1) xs) with
      | Resolved outs => Resolved (acc ++ outs)
      | Rejected e => Rejected e
      end.
Proof.
  intros Hstep. induction xs as [|x xs IH]; intros acc o0 o Ha; simpl.
  - unfold in_order. simpl. by rewrite app_nil_r.
  - unfold collect at 1, bind, ret.
    destruct (Hstep x o0 o Ha) as [H1 _]. destruct (Hstep x o o (agree_refl o)) as [_ H2].
    unfold in_order in *. simpl. rewrite H1.
    destruct (step x o) as [[e|out] o1]; simpl in *; [done|].
    rewrite (IH (acc ++ out) o0 o1) by (by eapply agree_trans).
    destruct (Promise_all _) as [outs|e]; [|done].
    simpl. by rewrite <- app_assoc.
Qed.

Lemma Promise_resolve_then_settle {A} (body : M A) (o : IOptions) :
  (Promise_resolve_then body o).1 = settle (body o).1.
Proof. unfold Promise_resolve_then. by destruct (body o) as [[e|a] o']. Qed.

End Isolation.

(** ** Classification by suffix *)

Lemma endsWith_js_not_map (n : string) : endsWith n ".js" = true -> endsWith n ".map" = false.
Proof.
  intros Hjs. destruct (endsWith n ".map") eqn:Hmap; [|done].
  apply endsWith_lastUnit in Hjs; [|done]. apply endsWith_lastUnit in Hmap; [|done].
  rewrite Hjs in Hmap. discriminate.
Qed.

Lemma endsWith_jsx_not_map (n : string) : endsWith n ".jsx" = true -> endsWith n ".map" = false.
Proof.
  intros Hjs. destruct (endsWith n ".map") eqn:Hmap; [|done].
  apply endsWith_lastUnit in Hjs; [|done]. apply endsWith_lastUnit in Hmap; [|done].
  rewrite Hjs in Hmap. discriminate.
Qed.

Lemma shouldTransform_not_discard (n : string) :
  BabelPlugin.shouldTransformFile n = true -> BabelPlugin.shouldDiscardFile n = false.
Proof.
  unfold BabelPlugin.shouldTransformFile, BabelPlugin.shouldDiscardFile.
  intros [Hjs|Hjsx]%orb_true_iff; [by apply endsWith_js_not_map|by apply endsWith_jsx_not_map].
Qed.

Lemma endsWith_app_map (n : string) : endsWith (n +:+ ".map") ".map" = true.
Proof. apply endsWith_iff. by exists n. Qed.

Lemma classify_spec_plugin (n : string) :
  classify_spec n =
  if BabelPlugin.shouldTransformFile n then Transformed
  else if BabelPlugin.shouldDiscardFile n then Dropped else PassedThrough.
Proof.
  unfold classify_spec.
  destruct (BabelPlugin.shouldTransformFile n) eqn:Ht.
  - apply shouldTransform_not_discard in Ht as Hd.
    unfold BabelPlugin.shouldDiscardFile in Hd. rewrite Hd.
    unfold BabelPlugin.shouldTransformFile in Ht. by rewrite Ht.
  - unfold BabelPlugin.shouldDiscardFile, BabelPlugin.shouldTransformFile in *.
    rewrite Ht. by destruct (endsWith n ".map").
Qed.

Section Batches.
Context `{Host}.

Lemma src_step_isolated (files : list OutputFile) : isolated (src_step files).
Proof.
  intros f o o' Ha. unfold src_step.
  destruct (endsWith (name f) ".map"); [split; [done|apply agree_refl]|].
  by apply transformFile_isolated.
Qed.

Lemma plugin_step_isolated (files : list OutputFile) : isolated (plugin_step files).
Proof.
  intros f o o' Ha. unfold plugin_step.
  destruct (BabelPlugin.shouldTransformFile (name f));
    [by apply transformFile_isolated|].
  destruct (BabelPlugin.shouldDiscardFile (name f)); split; done || apply agree_refl.
Qed.

Lemma extend_run (source : list (string * Value)) (o : IOptions) :
  extend source o = (inr tt, (extend source o).2).
Proof.
  revert o. induction source as [|[k v] source IH]; intros o; simpl; [done|].
  unfold bind, assign. apply IH.
Qed.

(** The output of [src/index.ts] is made of the contributions of the files,
    each computed on the options of the call. *)
Lemma src_babelTransform_pieces (files : list OutputFile) (o : IOptions) :
  (SrcIndex.babelTransform files o).1 = in_order (List.map (src_piece files o) files).
Proof.
  unfold SrcIndex.babelTransform, src_piece. rewrite Promise_resolve_then_settle.
  unfold bind at 1. rewrite (extend_run SrcIndex.optionsOverride o).
  fold (overridden o). generalize (overridden o). intros o1.
  rewrite (reduce_ext _ (collect (src_step files))).
  - rewrite (reduce_collect (src_step files) files (src_step_isolated files) [] o1 o1)
      by apply agree_refl.
    unfold src_step.
    replace (List.map (fun f => settle ((if endsWith (name f) ".map" then ret []
                                         else transformFile f files) o1).1) files)
      with (List.map (fun f => if endsWith (name f) ".map" then Resolved []
                               else settle (transformFile f files o1).1) files).
    + by destruct (in_order _).
    + apply map_ext. intros f. by destruct (endsWith (name f) ".map").
  - intros acc f o'. unfold collect, src_step, bind, ret.
    destruct (endsWith (name f) ".map"); [by rewrite app_nil_r|done].
Qed.

(** The output of [lib/index.js] is made of the contributions of the files,
    each computed on the options of the call. *)
Lemma plugin_babelTransform_pieces (files : list OutputFile) (o : IOptions) :
  (BabelPlugin.babelTransform files o).1 = in_order (List.map (plugin_piece files o) files).
Proof.
  unfold BabelPlugin.babelTransform. rewrite Promise_resolve_then_settle.
  rewrite (reduce_ext _ (collect (plugin_step files))).
  - rewrite (reduce_collect (plugin_step files) files (plugin_step_isolated files) [] o o)
      by apply agree_refl.
    replace (List.map (fun f => settle (plugin_step files f o).1) files)
      with (List.map (plugin_piece files o) files).
    + by destruct (in_order _).
    + apply map_ext. intros f. unfold plugin_piece, plugin_step.
      rewrite classify_spec_plugin.
      destruct (BabelPlugin.shouldTransformFile (name f)); [done|].
      by destruct (BabelPlugin.shouldDiscardFile (name f)).
  - intros acc f o'. unfold collect, plugin_step, bind, ret.
    destruct (BabelPlugin.shouldTransformFile (name f)); [done|].
    destruct (BabelPlugin.shouldDiscardFile (name f)); [by rewrite app_nil_r|done].
Qed.

End Batches.

(** ** The batch orchestrator *)

Section Orchestrator.
Context `{Host}.

Lemma batchTransform_pieces (ep : EntryPoint) (files : list OutputFile) (o : IOptions) :
  (batchTransform ep files o).1 = in_order (List.map (piece ep files o) files).
Proof.
  destruct ep; [apply src_babelTransform_pieces|apply plugin_babelTransform_pieces].
Qed.

Lemma in_order_rejected (pieces : list (Promise (list OutputFile))) (e : Exn) :
  Rejected e ∈ pieces -> exists e', in_order pieces = Rejected e'.
Proof.
  unfold in_order. induction pieces as [|p pieces IH]; intros Hin.
  - by apply elem_of_nil in Hin.
  - simpl. destruct p as [a|e0]; [|by exists e0].
    apply elem_of_cons in Hin as [Heq|Hin]; [done|].
    destruct (IH Hin) as [e' He']. exists e'.
    by destruct (Promise_all pieces).
Qed.

Lemma piece_transforms (ep : EntryPoint) (files : list OutputFile) (o : IOptions)
    (f : OutputFile) :
  transforms ep (name f) = true ->
  piece ep files o f = settle (transformFile f files (startOptions ep o)).1.
Proof.
  destruct ep; simpl; unfold src_piece, plugin_piece.
  - by intros ->%negb_true_iff.
  - intros Ht. rewrite classify_spec_plugin. by rewrite Ht.
Qed.

(** C1, as amended.  Every name falls under exactly one of the three
    classes of the specification: ending in [.js] or [.jsx], ending in
    [.map], anything else.  Under [lib/index.js] the output is the
    contributions of the files in batch order, where a file of the first
    class contributes what the file transformer returns for it, a file of
    the second class nothing, and any other file itself (the same name, text
    and writeByteOrderMark).  Under [src/index.ts] there is no pass-through:
    a file whose name ends in [.map] contributes nothing and every other
    file, whatever its suffix, is handed to the file transformer.  Under
    both, a failing transformation rejects the whole batch. *)
Theorem babelTransform_classifies (files : list OutputFile) (o : IOptions) :
  (forall n,
     (classify_spec n = Transformed <->
        endsWith n ".js" = true \/ endsWith n ".jsx" = true) /\
     (classify_spec n = Dropped <-> endsWith n ".map" = true) /\
     (classify_spec n = PassedThrough <->
        endsWith n ".js" = false /\ endsWith n ".jsx" = false /\
        endsWith n ".map" = false)) /\
  (batchTransform PluginClass files o).1
  = in_order (List.map (fun f =>
                match classify_spec (name f) with
                | Transformed => settle (transformFile f files o).1
                | Dropped => Resolved []
                | PassedThrough => Resolved [f]
                end) files) /\
  (batchTransform FunctionStyle files o).1
  = in_order (List.map (fun f =>
                if endsWith (name f) ".map" then Resolved []
                else settle (transformFile f files (overridden o)).1) files).
Proof.
  split; [|split; [apply plugin_babelTransform_pieces|apply src_babelTransform_pieces]].
  intros n. rewrite classify_spec_plugin.
  pose proof (shouldTransform_not_discard n) as Hex.
  unfold BabelPlugin.shouldTransformFile, BabelPlugin.shouldDiscardFile in *.
  destruct (endsWith n ".js"), (endsWith n ".jsx"), (endsWith n ".map");
    simpl in *; try (by specialize (Hex eq_refl)); clear Hex;
    repeat split; intros; try done; try (by left); try (by right);
    try (by destruct_or!); by destruct_and!.
Qed.

(** C9.  With hooks that resolve (whatever values they resolve with), the
    debug entry point settles exactly as the plain batch transform does on
    the same batch and options, and leaves the options in the same state. *)
Theorem babelTransformDebug_noop_hooks (ep : EntryPoint) {A B} (files : list OutputFile)
    (o : IOptions) (vin : OutputFile -> A) (vout : OutputFile -> B) :
  batchTransformDebug ep files (fun f => Resolved (vin f)) (fun f => Resolved (vout f)) o
  = batchTransform ep files o.
Proof.
  assert (Hall : forall {C} (v : OutputFile -> C) (l : list OutputFile),
             Promise_all (List.map (fun f => Resolved (v f)) l) = Resolved (List.map v l)).
  { intros C v l. induction l as [|x l IH]; simpl; [done|]. by rewrite IH. }
  destruct ep; simpl;
    unfold SrcIndex.babelTransformDebug, BabelPlugin.babelTransformDebug, then_, settled;
    rewrite Hall.
  - destruct (SrcIndex.babelTransform files o) as [[out|e] o']; [|done]. by rewrite Hall.
  - destruct (BabelPlugin.babelTransform files o) as [[out|e] o']; [|done]. by rewrite Hall.
Qed.

(** C5.  When the map file located for a file that the entry point
    transforms does not parse, the batch transform rejects: no output batch
    is produced. *)
Theorem malformed_map_rejects_batch (ep : EntryPoint) (files : list OutputFile)
    (o : IOptions) (f m : OutputFile) :
  f ∈ files -> transforms ep (name f) = true ->
  findSourceMapFile f files = Some m -> JSON_parse (text m) = None ->
  exists e, (batchTransform ep files o).1 = Rejected e.
Proof.
  intros Hin Ht Hm Hp. rewrite batchTransform_pieces.
  apply (in_order_rejected _ JsonSyntaxError).
  apply list_elem_of_In, in_map_iff. exists f. split; [|by apply list_elem_of_In].
  rewrite piece_transforms by done.
  rewrite transformFile_parse_error; [done|]. by rewrite Hm.
Qed.

End Orchestrator.

(** ** No leakage between the files of a batch *)

Lemma findSourceMapFile_Some (f m : OutputFile) (files : list OutputFile) :
  findSourceMapFile f files = Some m ->
  endsWith (name f) ".map" = false /\ name m = name f +:+ ".map".
Proof.
  unfold findSourceMapFile. destruct (endsWith (name f) ".map"); simpl; [done|].
  pose proof (filter_first_split _
    (fun candidate => String.eqb (name candidate) (name f +:+ ".map")) files) as Hs.
  destruct (List.filter _ files) as [|m' rest]; simpl; [done|].
  intros [= ->]. destruct Hs as (_ & _ & _ & Hm%String.eqb_eq & _). done.
Qed.

Lemma findSourceMapFile_self (f : OutputFile) : findSourceMapFile f [f] = None.
Proof.
  unfold findSourceMapFile. destruct (endsWith (name f) ".map"); simpl; [done|].
  destruct (String.eqb_spec (name f) (name f +:+ ".map")) as [E|_]; [|done].
  symmetry in E. by apply app_map_neq in E.
Qed.

Lemma findSourceMapFile_pair (f m : OutputFile) :
  endsWith (name f) ".map" = false -> name m = name f +:+ ".map" ->
  findSourceMapFile f [f; m] = Some m /\ findSourceMapFile f [m; f] = Some m.
Proof.
  intros He Hm. unfold findSourceMapFile. rewrite He. simpl. rewrite Hm.
  rewrite String.eqb_refl.
  destruct (String.eqb_spec (name f) (name f +:+ ".map")) as [E|_]; [|done].
  symmetry in E. by apply app_map_neq in E.
Qed.

Section Leakage.
Context `{Host}.

Lemma piece_context (ep : EntryPoint) (files files' : list OutputFile) (o : IOptions)
    (f : OutputFile) :
  findSourceMapFile f files = findSourceMapFile f files' ->
  piece ep files o f = piece ep files' o f.
Proof.
  intros Hc. destruct ep; simpl; unfold src_piece, plugin_piece.
  - destruct (endsWith (name f) ".map"); [done|]. by rewrite (transformFile_context f files files').
  - destruct (classify_spec (name f)); [|done..]. by rewrite (transformFile_context f files files').
Qed.

Lemma piece_map_file (ep : EntryPoint) (files : list OutputFile) (o : IOptions)
    (m : OutputFile) :
  endsWith (name m) ".map" = true -> piece ep files o m = Resolved [].
Proof.
  intros Hm. destruct ep; simpl; unfold src_piece, plugin_piece, classify_spec; by rewrite Hm.
Qed.

(** C4, as amended.  In a batch made of a first file, its sidecar map and a second file
    that has no sidecar map, the output is the output of the first file run
    with its map alone followed by the output of the second file run alone,
    all three runs starting from the same options: nothing that processing
    the first file wrote into the shared options ([sourceMaps], [sourceRoot],
    [sourceFileName], [sourceMapTarget], [inputSourceMap]) reaches the
    second. *)
Theorem no_leak_between_files (ep : EntryPoint) (f1 m1 f2 : OutputFile) (o : IOptions) :
  findSourceMapFile f1 [f1; m1; f2] = Some m1 ->
  findSourceMapFile f2 [f1; m1; f2] = None ->
  (batchTransform ep [f1; m1; f2] o).1
  = Promise_append (batchTransform ep [f1; m1] o).1 (batchTransform ep [f2] o).1.
Proof.
  intros H1 H2. rewrite !batchTransform_pieces. simpl.
  destruct (findSourceMapFile_Some _ _ _ H1) as [He Hm].
  rewrite (piece_context ep [f1; m1; f2] [f1; m1] o f1)
    by (rewrite H1; symmetry; by apply findSourceMapFile_pair).
  rewrite (piece_context ep [f1; m1; f2] [f2] o f2)
    by (rewrite H2; symmetry; apply findSourceMapFile_self).
  rewrite !(piece_map_file ep _ o m1) by (rewrite Hm; apply endsWith_app_map).
  unfold in_order, Promise_append. simpl.
  destruct (piece ep [f1; m1] o f1) as [out1|e1]; [|done].
  destruct (piece ep [f2] o f2) as [out2|e2]; [|done].
  simpl. by rewrite !app_nil_r.
Qed.

End Leakage.

(** ** What the file transformer returns *)

Lemma withoutMapOptions_lookup (o : IOptions) (n : string) :
  withoutMapOptions o n !! "sourceMaps" = Some (VBool false) /\
  withoutMapOptions o n !! "sourceRoot" = None /\
  withoutMapOptions o n !! "sourceFileName" = None /\
  withoutMapOptions o n !! "sourceMapTarget" = None /\
  withoutMapOptions o n !! "inputSourceMap" = None.
Proof. unfold withoutMapOptions, namedOptions. repeat split; by simplify_map_eq. Qed.

Lemma isSourceMapDocument_usable (v : Value) :
  isSourceMapDocument v = true -> ToBoolean v = true /\ sourcesReadable v = true.
Proof.
  destruct v as [| | | | | |props| |]; simpl; try done.
  intros [[Hs _]%andb_true_iff _]%andb_true_iff. split; [done|].
  unfold sourcesReadable, fieldOf. simpl.
  destruct (ownProperty "sources" props) as [[| | | | |xs| | |]|]; done.
Qed.

Section Outputs.
Context `{Host}.

Lemma transformFile_call (f : OutputFile) (files : list OutputFile) (o : IOptions)
    (v : Value) :
  inputMap (findSourceMapFile f files) = Some v -> usableMap v = true ->
  transformFile f files o
  = transformed f (findSourceMapFile f files) (callOptions o (name f) v).
Proof.
  unfold usableMap, callOptions. intros Hi Hu.
  destruct (ToBoolean v) eqn:Hv; simpl in Hu.
  - by apply transformFile_enabled.
  - by apply (transformFile_disabled _ _ _ v).
Qed.

(** C8.  Whatever [transformFile] returns for a file, the first output file
    carries the name and the writeByteOrderMark flag of the input file, and
    the second one, when there is one, carries those of the input map file
    the locator found; only the text is new.  The input files are values the
    operation receives and are not part of the state it works on (the
    options), so it cannot change them. *)
Theorem transformFile_keeps_name_and_bom (f : OutputFile) (files : list OutputFile)
    (o : IOptions) (out : list OutputFile) :
  (transformFile f files o).1 = inr out ->
  exists code,
    out = [ mkOutputFile (name f) code (writeByteOrderMark f) ] \/
    exists m mapText,
      findSourceMapFile f files = Some m /\
      out = [ mkOutputFile (name f) code (writeByteOrderMark f);
              mkOutputFile (name m) mapText (writeByteOrderMark m) ].
Proof.
  assert (Ht : forall o', (transformed f (findSourceMapFile f files) o').1 = inr out ->
    exists code,
      out = [ mkOutputFile (name f) code (writeByteOrderMark f) ] \/
      exists m mapText,
        findSourceMapFile f files = Some m /\
        out = [ mkOutputFile (name f) code (writeByteOrderMark f);
                mkOutputFile (name m) mapText (writeByteOrderMark m) ]).
  { intros o'. unfold transformed, emitted.
    destruct (babel_transform _ _) as [msg|r]; simpl; [done|].
    destruct (findSourceMapFile f files) as [m|];
      destruct (ToBoolean (babel.map r)); intros [= <-]; eexists;
      first [by left | right; by eexists _, _]. }
  destruct (inputMap_cases f files)
    as [Hn|[(v & Hi & Hv)|[(v & Hi & Hv & Hs)|(v & Hi & Hv & Hs)]]].
  - by rewrite transformFile_parse_error.
  - rewrite (transformFile_disabled _ _ _ v) by done. apply Ht.
  - rewrite (transformFile_enabled _ _ _ v) by done. apply Ht.
  - by rewrite (transformFile_type_error _ _ _ v).
Qed.

(** C10, as amended.  [transformFile] throws the parse error exactly when a
    map file is located and its text is not valid JSON.  When the text
    parses to a falsy value nothing is thrown on account of the map: the
    options are prepared as in the map-absent case (generation disabled, the
    four map fields absent) and the transform is called with them, as it is
    for any batch in which the file has no map.  What is returned then
    follows the result of that call.  When it carries no map, the single
    transformed source file is returned, as in the map-absent case.  When it
    carries a map although generation is disabled, the reference comment is
    appended in both cases, and the run that located a map file returns a
    second file too, under the name of the located map file, which the
    map-absent run does not. *)
Theorem falsy_map_like_no_map (f : OutputFile) (files : list OutputFile) (o : IOptions) :
  ((transformFile f files o).1 = inl JsonSyntaxError <->
     exists m, findSourceMapFile f files = Some m /\ JSON_parse (text m) = None) /\
  (forall m v,
     findSourceMapFile f files = Some m ->
     JSON_parse (text m) = Some v -> ToBoolean v = false ->
     let o' := withoutMapOptions o (name f) in
     ((transformFile f files o).2 = o' /\
      o' !! "sourceMaps" = Some (VBool false) /\
      o' !! "sourceRoot" = None /\ o' !! "sourceFileName" = None /\
      o' !! "sourceMapTarget" = None /\ o' !! "inputSourceMap" = None) /\
     transformFile f files o
     = match babel_transform (text f) o' with
       | inr r =>
           (inr (if ToBoolean (babel.map r)
                 then [ mkOutputFile (name f) (babel.code r +:+ mapReference (name f))
                          (writeByteOrderMark f);
                        mkOutputFile (name m) (JSON_stringify (babel.map r))
                          (writeByteOrderMark m) ]
                 else [ mkOutputFile (name f) (babel.code r) (writeByteOrderMark f) ]),
            o')
       | inl msg => (inl (BabelError msg), o')
       end /\
     (forall files', findSourceMapFile f files' = None ->
        transformFile f files' o
        = match babel_transform (text f) o' with
          | inr r =>
              (inr [ mkOutputFile (name f)
                       (if ToBoolean (babel.map r)
                        then babel.code r +:+ mapReference (name f)
                        else babel.code r)
                       (writeByteOrderMark f) ],
               o')
          | inl msg => (inl (BabelError msg), o')
          end /\
        (transformFile f files o).2 = (transformFile f files' o).2 /\
        (transformFile f files o = transformFile f files' o <->
           forall r, babel_transform (text f) o' = inr r ->
                     ToBoolean (babel.map r) = false))).
Proof.
  split.
  - split.
    + destruct (inputMap_cases f files)
        as [Hn|[(v & Hi & Hv)|[(v & Hi & Hv & Hs)|(v & Hi & Hv & Hs)]]].
      * intros _. unfold inputMap in Hn.
        destruct (findSourceMapFile f files) as [m|]; [by exists m|done].
      * rewrite (transformFile_disabled _ _ _ v) by done. unfold transformed.
        by destruct (babel_transform _ _).
      * rewrite (transformFile_enabled _ _ _ v) by done. unfold transformed.
        by destruct (babel_transform _ _).
      * by rewrite (transformFile_type_error _ _ _ v).
    + intros (m & Hm & Hp). rewrite transformFile_parse_error; [done|].
      by rewrite Hm.
  - intros m v Hm Hp Hv o'.
    assert (Hi : inputMap (findSourceMapFile f files) = Some v) by (by rewrite Hm).
    assert (Hrun : transformFile f files o
                   = transformed f (Some m) (withoutMapOptions o (name f))).
    { by rewrite (transformFile_disabled _ _ _ v), Hm. }
    assert (Habsent : forall files', findSourceMapFile f files' = None ->
              transformFile f files' o
              = transformed f None (withoutMapOptions o (name f))).
    { intros files' Hf'.
      by rewrite (transformFile_disabled f files' o VUndefined), Hf' by (by rewrite ?Hf'). }
    split; [|split].
    + split; [by rewrite Hrun, transformed_options|apply withoutMapOptions_lookup].
    + rewrite Hrun. unfold transformed, emitted, o'.
      destruct (babel_transform _ _) as [msg|r]; [done|].
      by destruct (ToBoolean (babel.map r)).
    + intros files' Hf'. rewrite Hrun, (Habsent files' Hf'). split; [|split].
      * unfold transformed, emitted, o'.
        destruct (babel_transform _ _) as [msg|r]; [done|].
        by destruct (ToBoolean (babel.map r)).
      * by rewrite !transformed_options.
      * unfold transformed, emitted, o'.
        destruct (babel_transform _ _) as [msg|r]; [by split|].
        destruct (ToBoolean (babel.map r)) eqn:Hmap.
        -- split; [intros [=]|]. intros Hr. specialize (Hr r eq_refl). congruence.
        -- split; [|done]. by intros _ r' [= <-].
Qed.

End Outputs.

(** ** A source file and its sidecar map in one batch *)

Section Pairs.
Context `{Host}.

Lemma in_order_pair_l (p : Promise (list OutputFile)) :
  in_order [p; Resolved []] = p.
Proof. unfold in_order. destruct p as [out|e]; simpl; [|done]. by rewrite app_nil_r. Qed.

Lemma in_order_pair_r (p : Promise (list OutputFile)) :
  in_order [Resolved []; p] = p.
Proof. unfold in_order. destruct p as [out|e]; simpl; [|done]. by rewrite app_nil_r. Qed.

Lemma in_order_single (p : Promise (list OutputFile)) : in_order [p] = p.
Proof. unfold in_order. destruct p as [out|e]; simpl; [|done]. by rewrite app_nil_r. Qed.

(** The batch made of a transformed file and its map, in either order, gives
    what [transformFile] returns for the file. *)
Lemma batchTransform_pair (ep : EntryPoint) (f m : OutputFile) (o : IOptions) :
  transforms ep (name f) = true -> endsWith (name f) ".map" = false ->
  name m = name f +:+ ".map" ->
  (batchTransform ep [f; m] o).1
    = settle (transformFile f [f; m] (startOptions ep o)).1 /\
  (batchTransform ep [m; f] o).1
    = settle (transformFile f [f; m] (startOptions ep o)).1 /\
  findSourceMapFile f [f; m] = Some m.
Proof.
  intros Ht He Hm. destruct (findSourceMapFile_pair f m He Hm) as [H1 H2].
  rewrite !batchTransform_pieces. simpl.
  rewrite !(piece_map_file ep _ o m) by (rewrite Hm; apply endsWith_app_map).
  rewrite in_order_pair_l, in_order_pair_r.
  rewrite (piece_context ep [m; f] [f; m] o f) by (by rewrite H1, H2).
  by rewrite piece_transforms.
Qed.

Lemma batchTransform_single (ep : EntryPoint) (f : OutputFile) (o : IOptions) :
  transforms ep (name f) = true ->
  (batchTransform ep [f] o).1 = settle (transformFile f [f] (startOptions ep o)).1.
Proof.
  intros Ht. rewrite batchTransform_pieces. simpl.
  by rewrite in_order_single, piece_transforms.
Qed.

(** C2.  A batch made of [a.js] and [a.js.map], in either order, where the
    text of the map file parses to a source map document and the transform
    called for [a.js] returns a map, resolves with exactly two files: [a.js],
    whose text is the returned code followed by the line feed and
    [//# sourceMappingURL=a.js.map], then [a.js.map], whose text is the
    serialization of the returned map. *)
Theorem pair_gives_source_then_map (ep : EntryPoint) (a m : OutputFile) (o : IOptions)
    (v : Value) (r : babel.BabelFileResult) :
  name a = "a.js" -> name m = "a.js.map" ->
  JSON_parse (text m) = Some v -> isSourceMapDocument v = true ->
  babel_transform (text a) (withMapOptions (startOptions ep o) "a.js" v) = inr r ->
  ToBoolean (babel.map r) = true ->
  let out :=
    [ mkOutputFile "a.js" (babel.code r +:+ LF +:+ "//# sourceMappingURL=a.js.map")
        (writeByteOrderMark a);
      mkOutputFile "a.js.map" (JSON_stringify (babel.map r)) (writeByteOrderMark m) ] in
  (batchTransform ep [a; m] o).1 = Resolved out /\
  (batchTransform ep [m; a] o).1 = Resolved out /\
  endsWith (babel.code r +:+ LF +:+ "//# sourceMappingURL=a.js.map")
           (LF +:+ "//# sourceMappingURL=a.js.map") = true.
Proof.
  intros Ha Hm Hp Hv Hr Hmap out.
  destruct (isSourceMapDocument_usable v Hv) as [Hv1 Hv2].
  destruct (batchTransform_pair ep a m o) as (-> & -> & Hf).
  { rewrite Ha. by destruct ep. }
  { by rewrite Ha. }
  { by rewrite Ha, Hm. }
  assert (Hrun : settle (transformFile a [a; m] (startOptions ep o)).1 = Resolved out).
  { rewrite (transformFile_enabled _ _ _ v) by (by rewrite ?Hf).
    unfold transformed, emitted. rewrite Ha, Hr, Hf, Hmap, Hm. done. }
  repeat split; [done..|].
  apply endsWith_iff. by exists (babel.code r).
Qed.

(** C3.  A batch made of [c.js] and [c.js.map], in either order, for which
    the transform called for [c.js] returns a result without a map, resolves
    with exactly one file, [c.js], whose text is the returned code with
    nothing appended; no file named [c.js.map] is in the output. *)
Theorem no_new_map_drops_old_map (ep : EntryPoint) (c m : OutputFile) (o : IOptions)
    (v : Value) (r : babel.BabelFileResult) :
  name c = "c.js" -> name m = "c.js.map" ->
  JSON_parse (text m) = Some v -> usableMap v = true ->
  babel_transform (text c) (callOptions (startOptions ep o) "c.js" v) = inr r ->
  ToBoolean (babel.map r) = false ->
  let out := [ mkOutputFile "c.js" (babel.code r) (writeByteOrderMark c) ] in
  (batchTransform ep [c; m] o).1 = Resolved out /\
  (batchTransform ep [m; c] o).1 = Resolved out /\
  Forall (fun f => name f <> "c.js.map") out.
Proof.
  intros Hc Hm Hp Hv Hr Hmap out.
  destruct (batchTransform_pair ep c m o) as (-> & -> & Hf).
  { rewrite Hc. by destruct ep. }
  { by rewrite Hc. }
  { by rewrite Hc, Hm. }
  assert (Hrun : settle (transformFile c [c; m] (startOptions ep o)).1 = Resolved out).
  { rewrite (transformFile_call _ _ _ v) by (by rewrite ?Hf).
    unfold transformed, emitted. rewrite Hc, Hr, Hf, Hmap. done. }
  repeat split; [done..|]. by repeat constructor.
Qed.

(** C7, as amended.  A batch made of [b.js] alone, for which the transform
    returns a result, has the transform called with map generation disabled
    and resolves with exactly one file, named [b.js]: no map file is
    emitted.  The text of that file is the returned code with nothing
    appended when the result carries no map; when the result carries a map
    although generation is disabled, the text is the returned code followed
    by the line feed and [//# sourceMappingURL=b.js.map]. *)
Theorem lone_file_single_output (ep : EntryPoint) (b : OutputFile) (o : IOptions)
    (r : babel.BabelFileResult) :
  name b = "b.js" ->
  babel_transform (text b) (withoutMapOptions (startOptions ep o) "b.js") = inr r ->
  withoutMapOptions (startOptions ep o) "b.js" !! "sourceMaps" = Some (VBool false) /\
  (batchTransform ep [b] o).1
  = Resolved [ mkOutputFile "b.js"
                 (if ToBoolean (babel.map r)
                  then babel.code r +:+ LF +:+ "//# sourceMappingURL=b.js.map"
                  else babel.code r)
                 (writeByteOrderMark b) ] /\
  (ToBoolean (babel.map r) = false ->
     (batchTransform ep [b] o).1
     = Resolved [ mkOutputFile "b.js" (babel.code r) (writeByteOrderMark b) ]).
Proof.
  intros Hb Hr.
  rewrite batchTransform_single by (rewrite Hb; by destruct ep).
  rewrite (transformFile_disabled _ _ _ VUndefined)
    by (by rewrite ?findSourceMapFile_self).
  unfold transformed, emitted. rewrite findSourceMapFile_self, Hb, Hr. simpl.
  split; [apply withoutMapOptions_lookup|]. split; [done|].
  by intros ->.
Qed.

End Pairs.

(** ** The properties at work on the demonstration host *)

Lemma pair_gives_source_then_map_witness :
  (batchTransform (H := demo_host) FunctionStyle [a_js; a_js_map] ∅).1
  = Resolved [ mkOutputFile "a.js" ("T(let a)" +:+ LF +:+ "//# sourceMappingURL=a.js.map") true;
               mkOutputFile "a.js.map" "{...}" false ].
Proof.
  apply (pair_gives_source_then_map (H := demo_host) FunctionStyle a_js a_js_map ∅ demo_map
           {| babel.code := "T(let a)"; babel.map := VObject [("file", VString "a.js")] |});
    vm_compute; reflexivity.
Defined.

Lemma no_new_map_drops_old_map_witness :
  (batchTransform (H := mapless_host) PluginClass [c_js; c_js_map] ∅).1
  = Resolved [ mkOutputFile "c.js" "T(let c)" false ].
Proof.
  apply (no_new_map_drops_old_map (H := mapless_host) PluginClass c_js c_js_map ∅ demo_map
           {| babel.code := "T(let c)"; babel.map := VUndefined |});
    vm_compute; reflexivity.
Defined.

Lemma no_leak_between_files_witness :
  (batchTransform (H := demo_host) FunctionStyle [a_js; a_js_map; b_js] ∅).1
  = Promise_append (batchTransform (H := demo_host) FunctionStyle [a_js; a_js_map] ∅).1
                   (batchTransform (H := demo_host) FunctionStyle [b_js] ∅).1.
Proof.
  apply (no_leak_between_files (H := demo_host) FunctionStyle a_js a_js_map b_js ∅);
    reflexivity.
Defined.

Lemma malformed_map_rejects_batch_witness :
  exists e, (batchTransform (H := demo_host) PluginClass [b_js; a_js; a_js_map_broken] ∅).1
            = Rejected e.
Proof.
  apply (malformed_map_rejects_batch (H := demo_host) PluginClass
           [b_js; a_js; a_js_map_broken] ∅ a_js a_js_map_broken).
  - apply list_elem_of_In. simpl. right. left. reflexivity.
  - reflexivity.
  - reflexivity.
  - reflexivity.
Defined.

Lemma lone_file_single_output_witness :
  (batchTransform (H := demo_host) FunctionStyle [b_js] ∅).1
  = Resolved [ mkOutputFile "b.js" "T(let b)" false ].
Proof.
  apply (lone_file_single_output (H := demo_host) FunctionStyle b_js ∅
           {| babel.code := "T(let b)"; babel.map := VNull |}).
  - reflexivity.
  - vm_compute. reflexivity.
  - reflexivity.
Defined.

Lemma transformFile_keeps_name_and_bom_witness :
  exists code,
    [ mkOutputFile "a.js" ("T(let a)" +:+ LF +:+ "//# sourceMappingURL=a.js.map") true;
      mkOutputFile "a.js.map" "{...}" false ]
    = [ mkOutputFile (name a_js) code (writeByteOrderMark a_js) ] \/
    exists m mapText,
      findSourceMapFile a_js [a_js; a_js_map] = Some m /\
      [ mkOutputFile "a.js" ("T(let a)" +:+ LF +:+ "//# sourceMappingURL=a.js.map") true;
        mkOutputFile "a.js.map" "{...}" false ]
      = [ mkOutputFile (name a_js) code (writeByteOrderMark a_js);
          mkOutputFile (name m) mapText (writeByteOrderMark m) ].
Proof.
  apply (transformFile_keeps_name_and_bom (H := demo_host) a_js [a_js; a_js_map] ∅).
  vm_compute. reflexivity.
Defined.

Lemma falsy_map_like_no_map_witness :
  transformFile (H := demo_host) a_js [a_js; a_js_map_null] ∅
  = transformFile (H := demo_host) a_js [a_js] ∅ /\
  (transformFile (H := demo_host) a_js [a_js; a_js_map_null] ∅).1
  = inr [ mkOutputFile "a.js" "T(let a)" true ] /\
  (transformFile (H := demo_host) a_js [a_js; a_js_map_empty] ∅).1 <> inl JsonSyntaxError.
Proof.
  destruct (falsy_map_like_no_map (H := demo_host) a_js [a_js; a_js_map_null] ∅)
    as [_ Hfalsy].
  destruct (Hfalsy a_js_map_null VNull eq_refl eq_refl eq_refl) as (_ & Hrun & Hsame).
  destruct (Hsame [a_js] eq_refl) as (_ & _ & Hiff').
  destruct (falsy_map_like_no_map (H := demo_host) a_js [a_js; a_js_map_empty] ∅)
    as [Hiff _].
  split; [|split].
  - apply Hiff'. intros r Hr. vm_compute in Hr. injection Hr as <-. reflexivity.
  - rewrite Hrun. vm_compute. reflexivity.
  - intros [m [Hm Hp]]%Hiff. injection Hm as <-. discriminate Hp.
Defined.

(** The claim C1 taken for the entry point of [src/index.ts]: a file named
    [d.txt] is not passed through, it is transformed. *)
Lemma function_style_transforms_other_files :
  classify_spec (name d_txt) = PassedThrough /\
  (batchTransform (H := demo_host) FunctionStyle [d_txt] ∅).1
  = Resolved [ mkOutputFile "d.txt" "T(notes)" false ] /\
  (batchTransform (H := demo_host) FunctionStyle [d_txt] ∅).1
  <> in_order (List.map (claimed_piece (H := demo_host) FunctionStyle [d_txt] ∅) [d_txt]).
Proof. repeat split. vm_compute. discriminate. Qed.

(** The claim C4 taken to the letter: [a.js] has a sidecar map in the batch
    and [a.js.map] has none, yet [a.js] run in a batch of one file has no
    map to work from and comes out without the reference comment and
    without a regenerated map.  The same holds when a second source file
    follows. *)
Lemma lone_runs_lose_the_map :
  findSourceMapFile a_js [a_js; a_js_map] = Some a_js_map /\
  findSourceMapFile a_js_map [a_js; a_js_map] = None /\
  (batchTransform (H := demo_host) FunctionStyle [a_js; a_js_map] ∅).1
  <> Promise_append (batchTransform (H := demo_host) FunctionStyle [a_js] ∅).1
                    (batchTransform (H := demo_host) FunctionStyle [a_js_map] ∅).1 /\
  (batchTransform (H := demo_host) FunctionStyle [a_js; a_js_map; b_js] ∅).1
  <> Promise_append
       (Promise_append (batchTransform (H := demo_host) FunctionStyle [a_js] ∅).1
                       (batchTransform (H := demo_host) FunctionStyle [a_js_map] ∅).1)
       (batchTransform (H := demo_host) FunctionStyle [b_js] ∅).1.
Proof. repeat split; vm_compute; discriminate. Qed.

(** The claim C7 taken to the letter, on a transform that returns a map
    although the options disable generation: [b.js] alone still comes out
    as one file, but its text ends with the reference comment. *)
Lemma lone_file_gets_comment_from_engine_map :
  findSourceMapFile b_js [b_js] = None /\
  (withoutMapOptions (startOptions FunctionStyle ∅) "b.js" : IOptions) !! "sourceMaps"
  = Some (VBool false) /\
  (batchTransform (H := mapping_host) FunctionStyle [b_js] ∅).1
  = Resolved [ mkOutputFile "b.js" ("T(let b)" +:+ LF +:+ "//# sourceMappingURL=b.js.map")
                 false ] /\
  (batchTransform (H := mapping_host) PluginClass [b_js] ∅).1
  = Resolved [ mkOutputFile "b.js" ("T(let b)" +:+ LF +:+ "//# sourceMappingURL=b.js.map")
                 false ] /\
  endsWith ("T(let b)" +:+ LF +:+ "//# sourceMappingURL=b.js.map")
           (LF +:+ "//# sourceMappingURL=b.js.map") = true /\
  (batchTransform (H := mapping_host) FunctionStyle [b_js] ∅).1
  <> Resolved [ mkOutputFile "b.js" "T(let b)" false ].
Proof. repeat split. vm_compute. discriminate. Qed.

(** The claim C10 taken to the letter, on the same transform: the map file
    whose text is [null] parses to a falsy value and nothing is thrown, yet
    the run returns two files, the second one under the name of the located
    map file, where the run without a map file returns one. *)
Lemma falsy_map_file_is_emitted_again :
  findSourceMapFile a_js [a_js; a_js_map_null] = Some a_js_map_null /\
  JSON_parse (Host := mapping_host) (text a_js_map_null) = Some VNull /\
  ToBoolean VNull = false /\
  findSourceMapFile a_js [a_js] = None /\
  (transformFile (H := mapping_host) a_js [a_js; a_js_map_null] ∅).1
  = inr [ mkOutputFile "a.js" ("T(let a)" +:+ LF +:+ "//# sourceMappingURL=a.js.map") true;
          mkOutputFile "a.js.map" "{...}" false ] /\
  (transformFile (H := mapping_host) a_js [a_js] ∅).1
  = inr [ mkOutputFile "a.js" ("T(let a)" +:+ LF +:+ "//# sourceMappingURL=a.js.map") true ] /\
  (transformFile (H := mapping_host) a_js [a_js; a_js_map_null] ∅).1
  <> (transformFile (H := mapping_host) a_js [a_js] ∅).1.
Proof. repeat split. vm_compute. discriminate. Qed.

(** ** Further runs *)

(** The suffix filtering example of the specification, on [lib/index.js]. *)
Example plugin_suffix_filtering :
  (batchTransform (H := demo_host) PluginClass [d_txt; e_jsx; f_js_map] ∅).1
  = Resolved [ d_txt; mkOutputFile "e.jsx" "T(<e/>)" false ].
Proof. vm_compute. reflexivity. Qed.

(** A map file leaves its place in the batch and the regenerated map comes
    right after its source. *)
Example map_follows_its_source :
  (batchTransform (H := demo_host) PluginClass [a_js_map; d_txt; a_js] ∅).1
  = Resolved [ d_txt;
               mkOutputFile "a.js" ("T(let a)" +:+ LF +:+ "//# sourceMappingURL=a.js.map") true;
               mkOutputFile "a.js.map" "{...}" false ].
Proof. vm_compute. reflexivity. Qed.

(** A map file whose text is valid JSON but has no [sources] makes
    [inMap.sources[0]] throw a [TypeError], not a parse error. *)
Example empty_object_map_type_error :
  (batchTransform (H := demo_host) FunctionStyle [a_js; a_js_map_empty] ∅).1
  = Rejected TypeError.
Proof. vm_compute. reflexivity. Qed.

(** A rejecting input hook rejects the debug entry point before the
    transform runs: the options are left as they were. *)
Example rejecting_input_hook :
  batchTransformDebug (H := demo_host) FunctionStyle [a_js; a_js_map]
    (fun _ => Rejected (A := unit) (HookError "disk full"))
    (fun _ => Resolved tt) ∅
  = (Rejected (HookError "disk full"), ∅).
Proof. reflexivity. Qed.

(** A failing transform rejects the batch with the engine's message. *)
Example transform_failure_rejects :
  (batchTransform (H := demo_host) PluginClass
     [b_js; mkOutputFile "x.js" "syntax error" false] ∅).1
  = Rejected (BabelError "SyntaxError: unexpected token").
Proof. vm_compute. reflexivity. Qed.

(** The options after a file with a map, and after a file without one. *)
Example options_after_map_file :
  (transformFile (H := demo_host) a_js [a_js; a_js_map] ∅).2 !! "sourceFileName"
  = Some (VString "a.ts").
Proof. vm_compute. reflexivity. Qed.

Example options_after_plain_file :
  (transformFile (H := demo_host) b_js [b_js]
     (transformFile (H := demo_host) a_js [a_js; a_js_map] ∅).2).2 !! "sourceFileName"
  = None.
Proof. vm_compute. reflexivity. Qed.

(** * Further properties *)

(** ** The options object across files and invocations *)

Ltac not_managed :=
  let Hin := fresh "Hin" in
  unfold managedKeys; intros Hin;
  repeat (apply elem_of_cons in Hin as [Hin|Hin]; [discriminate Hin|]);
  by apply elem_of_nil in Hin.

Section OptionsFrame.
Context `{Host}.

Lemma transformFile_success_options (f : OutputFile) (files : list OutputFile)
    (o o' : IOptions) (out : list OutputFile) :
  agree o o' -> (transformFile f files o).1 = inr out ->
  (transformFile f files o).2 = (transformFile f files o').2.
Proof.
  intros Ha.
  destruct (inputMap_cases f files)
    as [Hn|[(v & Hi & Hv)|[(v & Hi & Hv & Hs)|(v & Hi & Hv & Hs)]]].
  - by rewrite transformFile_parse_error.
  - rewrite !(transformFile_disabled _ _ _ v), !transformed_options by done.
    intros _. by apply withoutMapOptions_agree.
  - rewrite !(transformFile_enabled _ _ _ v), !transformed_options by done.
    intros _. by apply withMapOptions_agree.
  - by rewrite (transformFile_type_error _ _ _ v).
Qed.

(** X1.  [transformFile] writes the seven properties [filename],
    [filenameRelative], [sourceMaps], [sourceRoot], [sourceFileName],
    [sourceMapTarget] and [inputSourceMap] of the options object and no
    other: every other property is after the call what it was before,
    whether the call returns or throws. *)
Theorem transformFile_writes_managed_only (f : OutputFile) (files : list OutputFile)
    (o : IOptions) (k : string) :
  k ∉ managedKeys -> (transformFile f files o).2 !! k = o !! k.
Proof. intros Hk. symmetry. by apply transformFile_frame. Qed.

(** X2.  What the seven managed properties hold before the call has no
    influence on [transformFile]: two options objects that agree on every
    other property give the same files or the same exception, and, when
    files are returned, the same options object afterwards. *)
Theorem transformFile_ignores_stale_fields (f : OutputFile) (files : list OutputFile)
    (o o' : IOptions) :
  (forall k, k ∉ managedKeys -> o !! k = o' !! k) ->
  (transformFile f files o).1 = (transformFile f files o').1 /\
  (forall out, (transformFile f files o).1 = inr out ->
     (transformFile f files o).2 = (transformFile f files o').2).
Proof.
  intros Ha. split; [by apply transformFile_agree|].
  intros out. by apply transformFile_success_options.
Qed.

Lemma reduce_collect_frame (step : OutputFile -> M (list OutputFile))
    (xs : list OutputFile) :
  isolated step ->
  forall (acc : list OutputFile) (o : IOptions),
    agree o (reduce (collect step) xs acc o).2.
Proof.
  intros Hstep. induction xs as [|x xs IH]; intros acc o; simpl; [apply agree_refl|].
  unfold collect at 1, bind, ret.
  destruct (Hstep x o o (agree_refl o)) as [_ H2].
  destruct (step x o) as [[e|out] o1]; simpl in *; [done|].
  eapply agree_trans; [exact H2|apply IH].
Qed.

Lemma Promise_resolve_then_options {A} (body : M A) (o : IOptions) :
  (Promise_resolve_then body o).2 = (body o).2.
Proof. unfold Promise_resolve_then. by destruct (body o) as [[e|a] o']. Qed.

Lemma overridden_unfold (o : IOptions) :
  overridden o
  = <["shouldPrintComment" :=
        VFunction (fun comment => negb (isSourceMappingURLComment comment))]>
      (<["ast" := VBool false]> o).
Proof. reflexivity. Qed.

Lemma batchTransform_frame (ep : EntryPoint) (files : list OutputFile) (o : IOptions) :
  agree (startOptions ep o) (batchTransform ep files o).2.
Proof.
  destruct ep; simpl.
  - unfold SrcIndex.babelTransform. rewrite Promise_resolve_then_options.
    unfold bind at 1. rewrite (extend_run SrcIndex.optionsOverride o).
    fold (overridden o).
    rewrite (reduce_ext _ (collect (src_step files))).
    + apply reduce_collect_frame, src_step_isolated.
    + intros acc f o'. unfold collect, src_step, bind, ret.
      destruct (endsWith (name f) ".map"); [by rewrite app_nil_r|done].
  - unfold BabelPlugin.babelTransform. rewrite Promise_resolve_then_options.
    rewrite (reduce_ext _ (collect (plugin_step files))).
    + apply reduce_collect_frame, plugin_step_isolated.
    + intros acc f o'. unfold collect, plugin_step, bind, ret.
      destruct (BabelPlugin.shouldTransformFile (name f)); [done|].
      destruct (BabelPlugin.shouldDiscardFile (name f)); [by rewrite app_nil_r|done].
Qed.

(** X3.  A batch invocation leaves every property of the options object
    other than the seven managed ones as the caller set it, except that the
    entry point of [src/index.ts] sets [ast] to [false] and
    [shouldPrintComment] to the filter of map-reference comments, whatever
    the caller had put there.  This holds whether the promise resolves or
    rejects. *)
Theorem batchTransform_options_after (files : list OutputFile) (o : IOptions) :
  (forall k, k ∉ managedKeys ->
     (batchTransform PluginClass files o).2 !! k = o !! k) /\
  (batchTransform FunctionStyle files o).2 !! "ast" = Some (VBool false) /\
  (batchTransform FunctionStyle files o).2 !! "shouldPrintComment"
  = Some (VFunction (fun comment => negb (isSourceMappingURLComment comment))) /\
  (forall k, k ∉ managedKeys -> k <> "ast" -> k <> "shouldPrintComment" ->
     (batchTransform FunctionStyle files o).2 !! k = o !! k).
Proof.
  pose proof (batchTransform_frame PluginClass files o) as Hp.
  pose proof (batchTransform_frame FunctionStyle files o) as Hf.
  simpl startOptions in *. rewrite overridden_unfold in Hf.
  split; [intros k Hk; symmetry; by apply Hp|].
  repeat split.
  - rewrite <- Hf by not_managed. by simplify_map_eq.
  - rewrite <- Hf by not_managed. by simplify_map_eq.
  - intros k Hk H1 H2. rewrite <- Hf by done. by simplify_map_eq.
Qed.

Lemma piece_agree (ep : EntryPoint) (files : list OutputFile) (o o' : IOptions)
    (f : OutputFile) :
  agree (startOptions ep o) (startOptions ep o') ->
  piece ep files o f = piece ep files o' f.
Proof.
  intros Ha. destruct ep; simpl in *; unfold src_piece, plugin_piece.
  - destruct (endsWith (name f) ".map"); [done|].
    by rewrite (transformFile_agree f files _ _ Ha).
  - destruct (classify_spec (name f)); [|done..].
    by rewrite (transformFile_agree f files _ _ Ha).
Qed.

Lemma startOptions_agree (ep : EntryPoint) (o o2 : IOptions) :
  agree (startOptions ep o) o2 -> agree (startOptions ep o) (startOptions ep o2).
Proof.
  destruct ep; simpl; [|done]. intros Ha.
  rewrite (overridden_unfold o2).
  replace (overridden o) with
    (<["shouldPrintComment" :=
         VFunction (fun comment => negb (isSourceMappingURLComment comment))]>
       (<["ast" := VBool false]> (overridden o))).
  - by do 2 apply agree_insert.
  - rewrite overridden_unfold. apply map_eq. intros k.
    rewrite !lookup_insert. by repeat case_decide.
Qed.

(** X4.  The options object can be used again: an invocation on the object
    as an earlier invocation (of either outcome, on any batch) left it
    settles like an invocation on the object before that earlier one. *)
Theorem batchTransform_reuses_options (ep : EntryPoint) (earlier files : list OutputFile)
    (o : IOptions) :
  (batchTransform ep files (batchTransform ep earlier o).2).1
  = (batchTransform ep files o).1.
Proof.
  rewrite !batchTransform_pieces. f_equal. apply map_ext. intros f.
  symmetry. apply piece_agree, startOptions_agree, batchTransform_frame.
Qed.

End OptionsFrame.

(** ** The shape of the output *)

Lemma findSourceMapFile_elem (f m : OutputFile) (files : list OutputFile) :
  findSourceMapFile f files = Some m -> m ∈ files.
Proof.
  unfold findSourceMapFile. destruct (endsWith (name f) ".map"); simpl; [done|].
  pose proof (filter_first_split _
    (fun candidate => String.eqb (name candidate) (name f +:+ ".map")) files) as Hs.
  destruct (List.filter _ files) as [|m' rest]; simpl; [done|].
  intros [= ->]. destruct Hs as (pre & post & -> & _ & _).
  apply elem_of_app. right. apply elem_of_cons. by left.
Qed.

(** X5.  The file the locator returns is an element of the batch, is not
    the source file, and has a name ending in [.map]; so neither entry point
    ever hands it to [transformFile]: a file serves as a map or as a source,
    not both. *)
Theorem located_map_is_never_a_source (f m : OutputFile) (files : list OutputFile) :
  findSourceMapFile f files = Some m ->
  m ∈ files /\ m <> f /\ endsWith (name m) ".map" = true /\
  forall ep, transforms ep (name m) = false.
Proof.
  intros Hf. destruct (findSourceMapFile_Some _ _ _ Hf) as [He Hm].
  assert (Hend : endsWith (name m) ".map" = true)
    by (rewrite Hm; apply endsWith_app_map).
  split; [by eapply findSourceMapFile_elem|]. split; [|split; [done|]].
  - intros ->. symmetry in Hm. by apply app_map_neq in Hm.
  - intros [|]; simpl.
    + by rewrite Hend.
    + destruct (BabelPlugin.shouldTransformFile (name m)) eqn:Ht; [|done].
      apply shouldTransform_not_discard in Ht.
      unfold BabelPlugin.shouldDiscardFile in Ht. congruence.
Qed.

Section Shape.
Context `{Host}.

Lemma transformFile_emitted (f : OutputFile) (files : list OutputFile) (o : IOptions)
    (out : list OutputFile) :
  (transformFile f files o).1 = inr out ->
  exists r, out = emitted f (findSourceMapFile f files) r.
Proof.
  assert (Ht : forall o', (transformed f (findSourceMapFile f files) o').1 = inr out ->
                          exists r, out = emitted f (findSourceMapFile f files) r).
  { intros o'. unfold transformed.
    destruct (babel_transform _ _) as [msg|r]; simpl; [done|].
    intros [= <-]. by exists r. }
  destruct (inputMap_cases f files)
    as [Hn|[(v & Hi & Hv)|[(v & Hi & Hv & Hs)|(v & Hi & Hv & Hs)]]].
  - by rewrite transformFile_parse_error.
  - rewrite (transformFile_disabled _ _ _ v) by done. apply Ht.
  - rewrite (transformFile_enabled _ _ _ v) by done. apply Ht.
  - by rewrite (transformFile_type_error _ _ _ v).
Qed.

Lemma Promise_all_resolved {A} (ps : list (Promise A)) (outs : list A) :
  Promise_all ps = Resolved outs -> Forall2 (fun p a => p = Resolved a) ps outs.
Proof.
  revert outs. induction ps as [|p ps IH]; intros outs; simpl.
  - intros [= <-]. constructor.
  - destruct p as [a|e]; [|done].
    destruct (Promise_all ps) as [l|e]; [|done].
    intros [= <-]. constructor; [done|]. by apply IH.
Qed.

(** What is true of every list a file may contribute is true of the whole
    output, provided it is kept by concatenation. *)
Lemma batch_output_ind (P : list OutputFile -> Prop) (ep : EntryPoint)
    (files : list OutputFile) (o : IOptions) (out : list OutputFile) :
  P [] -> (forall a b, P a -> P b -> P (a ++ b)) ->
  (forall f l, f ∈ files -> piece ep files o f = Resolved l -> P l) ->
  (batchTransform ep files o).1 = Resolved out -> P out.
Proof.
  intros Hnil Happ Hpiece. rewrite batchTransform_pieces. unfold in_order.
  destruct (Promise_all _) as [outs|e] eqn:Hall; [|done].
  intros [= <-]. apply Promise_all_resolved in Hall.
  assert (Hfor : forall fs, (forall f, f ∈ fs -> f ∈ files) ->
            forall os, Forall2 (fun p a => p = Resolved a)
                         (List.map (piece ep files o) fs) os -> P (concat os)).
  { induction fs as [|f fs IH]; intros Hsub os Hos; simpl in Hos.
    - inversion Hos. exact Hnil.
    - inversion Hos as [|p a ps os' Hp Hrest]; subst. simpl. apply Happ.
      + apply (Hpiece f); [apply Hsub; by left|done].
      + apply IH; [|done]. intros g Hg. apply Hsub. by right. }
  by apply (Hfor files).
Qed.

Lemma piece_cases (ep : EntryPoint) (files : list OutputFile) (o : IOptions)
    (f : OutputFile) (l : list OutputFile) :
  piece ep files o f = Resolved l ->
  l = [] \/ (l = [f] /\ endsWith (name f) ".map" = false) \/
  (endsWith (name f) ".map" = false /\
   exists r, l = emitted f (findSourceMapFile f files) r).
Proof.
  destruct ep; simpl; unfold src_piece, plugin_piece.
  - destruct (endsWith (name f) ".map") eqn:He; [intros [= <-]; by left|].
    destruct (transformFile f files (overridden o)) as [[e|out] o'] eqn:Ht; [done|].
    simpl. intros [= <-]. right. right. split; [done|].
    apply (transformFile_emitted f files (overridden o)). by rewrite Ht.
  - rewrite classify_spec_plugin.
    destruct (BabelPlugin.shouldTransformFile (name f)) eqn:Hs.
    + apply shouldTransform_not_discard in Hs as Hd.
      destruct (transformFile f files o) as [[e|out] o'] eqn:Ht; [done|].
      simpl. intros [= <-]. right. right. split; [done|].
      apply (transformFile_emitted f files o). by rewrite Ht.
    + destruct (BabelPlugin.shouldDiscardFile (name f)) eqn:Hd;
        intros [= <-]; [by left|right; left; done].
Qed.

(** X6.  The pipeline invents no file: every file of a resolved output
    carries the name and the writeByteOrderMark flag of some file of the
    input batch. *)
Theorem output_names_come_from_input (ep : EntryPoint) (files : list OutputFile)
    (o : IOptions) (out : list OutputFile) :
  (batchTransform ep files o).1 = Resolved out ->
  forall x, x ∈ out ->
    exists f, f ∈ files /\ name x = name f /\
              writeByteOrderMark x = writeByteOrderMark f.
Proof.
  apply (batch_output_ind
    (fun l => forall x, x ∈ l ->
       exists f, f ∈ files /\ name x = name f /\
                 writeByteOrderMark x = writeByteOrderMark f)).
  - intros x Hx. by apply elem_of_nil in Hx.
  - intros a b Ha Hb x [Hx|Hx]%elem_of_app; [by apply Ha|by apply Hb].
  - intros f l Hf Hp x Hx.
    destruct (piece_cases _ _ _ _ _ Hp) as [->|[[-> _]|[_ [r ->]]]].
    + by apply elem_of_nil in Hx.
    + apply list_elem_of_singleton in Hx as ->. by exists f.
    + unfold emitted in Hx.
      destruct (findSourceMapFile f files) as [m|] eqn:Hm;
        [destruct (ToBoolean (babel.map r))|].
      * apply elem_of_cons in Hx as [->|Hx]; [by exists f|].
        apply list_elem_of_singleton in Hx as ->.
        exists m. split; [by eapply findSourceMapFile_elem|done].
      * apply list_elem_of_singleton in Hx as ->. by exists f.
      * apply list_elem_of_singleton in Hx as ->. by exists f.
Qed.

Lemma paired_app (a b : list OutputFile) : paired a -> paired b -> paired (a ++ b).
Proof.
  intros Ha Hb. induction Ha; simpl; [done|by constructor|by constructor].
Qed.

Lemma paired_preceded (out : list OutputFile) :
  paired out ->
  forall pre x post, out = pre ++ x :: post -> endsWith (name x) ".map" = true ->
    exists pre' s, pre = pre' ++ [s] /\ name x = name s +:+ ".map" /\
                   endsWith (name s) ".map" = false.
Proof.
  induction 1 as [|s rest Hs Hrest IH|s m rest Hs Hm Hrest IH];
    intros pre x post Heq Hx.
  - by destruct pre.
  - destruct pre as [|p pre]; simpl in Heq; injection Heq as -> ->; [congruence|].
    destruct (IH pre x post eq_refl Hx) as (pre' & s' & -> & Hn & He).
    by exists (p :: pre'), s'.
  - destruct pre as [|p pre]; simpl in Heq; injection Heq as -> Heq; [congruence|].
    destruct pre as [|q pre]; simpl in Heq; injection Heq as -> ->.
    + by exists [], p.
    + destruct (IH pre x post eq_refl Hx) as (pre' & s' & -> & Hn & He).
      by exists (p :: q :: pre'), s'.
Qed.

(** X7.  In a resolved output every file whose name ends in [.map] comes
    right after the file it is the map of: the file before it has the same
    name without the [.map] suffix and is not a map itself.  In particular
    the output never starts with a map and never has two maps in a row. *)
Theorem output_maps_follow_their_source (ep : EntryPoint) (files : list OutputFile)
    (o : IOptions) (out : list OutputFile) :
  (batchTransform ep files o).1 = Resolved out ->
  forall pre x post, out = pre ++ x :: post -> endsWith (name x) ".map" = true ->
    exists pre' s, pre = pre' ++ [s] /\ name x = name s +:+ ".map" /\
                   endsWith (name s) ".map" = false.
Proof.
  intros Hout. apply paired_preceded. revert Hout.
  apply (batch_output_ind paired); [constructor|apply paired_app|].
  intros f l Hf Hp.
  destruct (piece_cases _ _ _ _ _ Hp) as [->|[[-> He]|[He [r ->]]]].
  - constructor.
  - by repeat constructor.
  - unfold emitted.
    destruct (findSourceMapFile f files) as [m|] eqn:Hm;
      [destruct (ToBoolean (babel.map r))|].
    + apply paired_with_map; [done| |constructor].
      by destruct (findSourceMapFile_Some _ _ _ Hm).
    + by repeat constructor.
    + by repeat constructor.
Qed.

End Shape.

(** ** Batches side by side, and batches without sources *)

Lemma Promise_all_app {A} (ps qs : list (Promise A)) :
  Promise_all (ps ++ qs)
  = match Promise_all ps with
    | Resolved l1 =>
        match Promise_all qs with
        | Resolved l2 => Resolved (l1 ++ l2)
        | Rejected e => Rejected e
        end
    | Rejected e => Rejected e
    end.
Proof.
  induction ps as [|p ps IH]; simpl.
  - by destruct (Promise_all qs).
  - destruct p as [a|e]; [|done]. rewrite IH.
    destruct (Promise_all ps) as [l1|e1]; [|done].
    by destruct (Promise_all qs).
Qed.

Lemma in_order_app (ps qs : list (Promise (list OutputFile))) :
  in_order (ps ++ qs) = Promise_append (in_order ps) (in_order qs).
Proof.
  unfold in_order, Promise_append. rewrite Promise_all_app.
  destruct (Promise_all ps) as [l1|e1]; [|done].
  destruct (Promise_all qs) as [l2|e2]; [|done].
  by rewrite concat_app.
Qed.

Section Splitting.
Context `{Host}.

(** X8.  Two batches put one after the other: when every file finds in its
    own batch the map the locator finds for it in the joint batch, the joint
    batch settles with the output of the first followed by the output of the
    second, or with the first rejection. *)
Theorem batchTransform_app (ep : EntryPoint) (xs ys : list OutputFile) (o : IOptions) :
  (forall f, f ∈ xs -> findSourceMapFile f (xs ++ ys) = findSourceMapFile f xs) ->
  (forall f, f ∈ ys -> findSourceMapFile f (xs ++ ys) = findSourceMapFile f ys) ->
  (batchTransform ep (xs ++ ys) o).1
  = Promise_append (batchTransform ep xs o).1 (batchTransform ep ys o).1.
Proof.
  intros Hx Hy. rewrite !batchTransform_pieces, map_app, in_order_app.
  f_equal; f_equal; apply map_ext_in; intros f Hf%list_elem_of_In;
    apply piece_context; auto.
Qed.

Lemma map_name_not_transformed (n : string) :
  endsWith n ".map" = true -> BabelPlugin.shouldTransformFile n = false.
Proof.
  intros Hm. destruct (BabelPlugin.shouldTransformFile n) eqn:Ht; [|done].
  apply shouldTransform_not_discard in Ht.
  unfold BabelPlugin.shouldDiscardFile in Ht. congruence.
Qed.

Lemma reduce_maps_src (all files : list OutputFile) (o1 : IOptions) :
  Forall (fun f => endsWith (name f) ".map" = true) files ->
  reduce (fun transformedFiles inputFile =>
            if endsWith (name inputFile) ".map" then ret transformedFiles
            else let! out := transformFile inputFile all in
                 ret (transformedFiles ++ out)) files [] o1 = (inr [], o1).
Proof.
  intros Hall. revert o1.
  induction Hall as [|f fs Hf _ IH]; intros o1; simpl; [done|].
  unfold bind at 1. rewrite Hf. simpl. apply IH.
Qed.

Lemma reduce_maps_plugin (all files : list OutputFile) (o1 : IOptions) :
  Forall (fun f => endsWith (name f) ".map" = true) files ->
  reduce (fun transformedFiles inputFile =>
            if BabelPlugin.shouldTransformFile (name inputFile) then
              let! out := transformFile inputFile all in
              ret (transformedFiles ++ out)
            else if BabelPlugin.shouldDiscardFile (name inputFile) then
              ret transformedFiles
            else ret (transformedFiles ++ [inputFile])) files [] o1 = (inr [], o1).
Proof.
  intros Hall. revert o1.
  induction Hall as [|f fs Hf _ IH]; intros o1; simpl; [done|].
  unfold bind at 1. rewrite (map_name_not_transformed _ Hf).
  unfold BabelPlugin.shouldDiscardFile at 1. rewrite Hf. simpl. apply IH.
Qed.

(** X9.  A batch that holds map files only (the empty batch among them)
    resolves with the empty output; the transform is not called and the
    options object is left as it was, but for the overrides that
    [src/index.ts] installs. *)
Theorem batch_of_maps_gives_nothing (ep : EntryPoint) (files : list OutputFile)
    (o : IOptions) :
  Forall (fun f => endsWith (name f) ".map" = true) files ->
  batchTransform ep files o = (Resolved [], startOptions ep o).
Proof.
  intros Hall. destruct ep; simpl.
  - unfold SrcIndex.babelTransform, Promise_resolve_then. unfold bind at 1.
    rewrite (extend_run SrcIndex.optionsOverride o). fold (overridden o).
    by rewrite reduce_maps_src.
  - unfold BabelPlugin.babelTransform, Promise_resolve_then.
    by rewrite reduce_maps_plugin.
Qed.

(** ** The map file that is JSON but not a map *)

Lemma sourcesReadable_false (v : Value) :
  sourcesReadable v = false <->
  fieldOf v "sources" = VUndefined \/ fieldOf v "sources" = VNull.
Proof.
  unfold sourcesReadable.
  destruct (fieldOf v "sources") as [| | | |[|c s]| | | |]; simpl;
    split; intros; try done; try (by left); try (by right); by destruct_or!.
Qed.

(** X10.  [transformFile] throws a [TypeError] exactly when the located map
    file parses to a truthy value whose [sources] is [undefined] or [null]
    (the texts [{}], [1] or ["x"], for instance).  The throw happens midway
    through the preparation of the options: [sourceMaps] is already [true]
    and [sourceRoot] already set, while [sourceFileName], [sourceMapTarget]
    and [inputSourceMap] still hold what an earlier file left there. *)
Theorem truthy_map_without_sources_throws (f : OutputFile) (files : list OutputFile)
    (o : IOptions) :
  ((transformFile f files o).1 = inl TypeError <->
     exists m v, findSourceMapFile f files = Some m /\
                 JSON_parse (text m) = Some v /\ ToBoolean v = true /\
                 (fieldOf v "sources" = VUndefined \/ fieldOf v "sources" = VNull)) /\
  ((transformFile f files o).1 = inl TypeError ->
     let o' := (transformFile f files o).2 in
     o' !! "sourceMaps" = Some (VBool true) /\
     is_Some (o' !! "sourceRoot") /\
     o' !! "sourceFileName" = o !! "sourceFileName" /\
     o' !! "sourceMapTarget" = o !! "sourceMapTarget" /\
     o' !! "inputSourceMap" = o !! "inputSourceMap").
Proof.
  destruct (inputMap_cases f files)
    as [Hn|[(v & Hi & Hv)|[(v & Hi & Hv & Hs)|(v & Hi & Hv & Hs)]]].
  - rewrite transformFile_parse_error by done. split; [|done]. split; [done|].
    intros (m & v & Hm & Hp & _). unfold inputMap in Hn. rewrite Hm in Hn. congruence.
  - rewrite (transformFile_disabled _ _ _ v) by done. unfold transformed.
    assert (Hne : (match babel_transform (text f) (withoutMapOptions o (name f)) with
                   | inl msg => (inl (BabelError msg), withoutMapOptions o (name f))
                   | inr r => (inr (emitted f (findSourceMapFile f files) r),
                               withoutMapOptions o (name f))
                   end).1 <> inl TypeError) by (by destruct (babel_transform _ _)).
    split; [|done]. split; [done|].
    intros (m & v' & Hm & Hp & Hv' & _). unfold inputMap in Hi. rewrite Hm in Hi. congruence.
  - rewrite (transformFile_enabled _ _ _ v) by done. unfold transformed.
    assert (Hne : (match babel_transform (text f) (withMapOptions o (name f) v) with
                   | inl msg => (inl (BabelError msg), withMapOptions o (name f) v)
                   | inr r => (inr (emitted f (findSourceMapFile f files) r),
                               withMapOptions o (name f) v)
                   end).1 <> inl TypeError) by (by destruct (babel_transform _ _)).
    split; [|done]. split; [done|].
    intros (m & v' & Hm & Hp & Hv' & Hsrc%sourcesReadable_false).
    unfold inputMap in Hi. rewrite Hm in Hi. congruence.
  - rewrite (transformFile_type_error _ _ _ v) by done. cbn [fst snd]. split.
    + split; [|done]. intros _. unfold inputMap in Hi.
      destruct (findSourceMapFile f files) as [m|]; [|by injection Hi as <-].
      exists m, v. repeat split; [done..|]. by apply sourcesReadable_false.
    + intros _. unfold namedOptions.
      repeat split; simplify_map_eq; try done; by eexists.
Qed.

End Splitting.

(** ** The reference comment *)

Lemma prefix_iff (p s : string) :
  String.prefix p s = true <-> exists rest, s = p +:+ rest.
Proof.
  revert s. induction p as [|a p IH]; intros s; simpl.
  - destruct s; split; intros; try done; by eexists.
  - destruct s as [|b s]; simpl.
    + split; [done|]. by intros [rest Hr].
    + destruct (Ascii.ascii_dec a b) as [->|Hab].
      * rewrite IH. split; intros [rest Hr]; exists rest.
        -- by rewrite app_cons, Hr.
        -- rewrite app_cons in Hr. by injection Hr.
      * split; [done|]. intros [rest Hr]. rewrite app_cons in Hr. by injection Hr.
Qed.

Section Comment.
Context `{Host}.

(** X11.  The comment filter accepts exactly the comments that start with
    [# sourceMappingURL=], and the line [transformFile] appends to the code
    is such a comment: after the line feed come [//] and a text the filter
    accepts.  So the function installed as [shouldPrintComment] (by
    [babelTransform] of [src/index.ts] and by the constructor of the class)
    refuses the comment the pipeline itself wrote when the code is
    transformed again. *)
Theorem appended_comment_is_filtered (f : OutputFile) (files : list OutputFile)
    (o : IOptions) (s m : OutputFile) :
  (forall c, isSourceMappingURLComment c = true <->
             exists rest, c = "# sourceMappingURL=" +:+ rest) /\
  ((transformFile f files o).1 = inr [s; m] ->
   exists code body,
     text s = code +:+ LF +:+ "//" +:+ body /\
     isSourceMappingURLComment body = true /\
     forall shouldPrintComment,
       ("shouldPrintComment", VFunction shouldPrintComment) ∈ SrcIndex.optionsOverride \/
       ("shouldPrintComment", VFunction shouldPrintComment) ∈ PluginSetup.overrides ->
       shouldPrintComment body = false).
Proof.
  split; [intros c; apply prefix_iff|].
  intros Ht. destruct (transformFile_emitted _ _ _ _ Ht) as [r Hr].
  unfold emitted in Hr.
  destruct (findSourceMapFile f files) as [mf|]; [|done].
  destruct (ToBoolean (babel.map r)); [|done].
  injection Hr as -> ->. simpl.
  exists (babel.code r), ("# sourceMappingURL=" +:+ basename (name f) +:+ ".map").
  split; [done|]. assert (Hp : isSourceMappingURLComment
    ("# sourceMappingURL=" +:+ basename (name f) +:+ ".map") = true).
  { apply prefix_iff. by eexists. }
  split; [done|].
  unfold SrcIndex.optionsOverride, PluginSetup.overrides.
  intros keep [Hin|Hin];
    repeat (apply elem_of_cons in Hin as [Hin|Hin];
            [try discriminate Hin; injection Hin as ->; by rewrite Hp|]);
    by apply elem_of_nil in Hin.
Qed.

End Comment.

(** ** The reference comment and the name of the map *)

Lemma list_ascii_app (s t : string) :
  String.list_ascii_of_string (s +:+ t)
  = String.list_ascii_of_string s ++ String.list_ascii_of_string t.
Proof.
  induction s as [|c s IH]; [done|]. rewrite app_cons. simpl. by rewrite IH.
Qed.

Lemma string_of_list_app (a b : list Ascii.ascii) :
  String.string_of_list_ascii (a ++ b)
  = String.string_of_list_ascii a +:+ String.string_of_list_ascii b.
Proof.
  induction a as [|c a IH]; [done|]. simpl. by rewrite IH, app_cons.
Qed.

Lemma basename_go_seen_acc (rs acc tail : list Ascii.ascii) :
  basename_go rs true (acc ++ tail) = basename_go rs true acc ++ tail.
Proof.
  revert acc. induction rs as [|c rs IH]; intros acc; simpl; [done|].
  destruct (Ascii.eqb c slash); [done|]. apply (IH (c :: acc)).
Qed.

Lemma basename_go_unseen (rs : list Ascii.ascii) :
  head rs <> Some slash -> basename_go rs false [] = basename_go rs true [].
Proof.
  destruct rs as [|c rs]; simpl; [done|]. intros Hc.
  destruct (Ascii.eqb_spec c slash) as [->|_]; done.
Qed.

Lemma endsWith_slash_head (n : string) :
  endsWith n "/" = false -> head (rev (String.list_ascii_of_string n)) <> Some slash.
Proof.
  intros He Hh.
  destruct (rev (String.list_ascii_of_string n)) as [|c r] eqn:Hr; [done|].
  injection Hh as ->.
  assert (Hn : String.list_ascii_of_string n = rev r ++ [slash]).
  { rewrite <- (rev_involutive (String.list_ascii_of_string n)), Hr. done. }
  assert (Hend : endsWith n "/" = true); [|congruence].
  apply endsWith_iff. exists (String.string_of_list_ascii (rev r)).
  rewrite <- (String.string_of_list_ascii_of_string n), Hn.
  by rewrite string_of_list_app.
Qed.

Lemma basename_map_suffix (n : string) :
  endsWith n "/" = false -> basename (n +:+ ".map") = basename n +:+ ".map".
Proof.
  intros He. unfold basename.
  assert (Hstep : forall rs,
    basename_go (rev (String.list_ascii_of_string ".map") ++ rs) false []
    = basename_go rs true ([] ++ String.list_ascii_of_string ".map")) by reflexivity.
  rewrite list_ascii_app, rev_app_distr, Hstep.
  rewrite basename_go_seen_acc, string_of_list_app.
  rewrite basename_go_unseen by (by apply endsWith_slash_head).
  done.
Qed.

Section CommentTarget.
Context `{Host}.

(** X12.  When [transformFile] returns a source file and a map file for a
    file whose name does not end in a slash, the reference comment at the
    end of the source text names the map file returned with it: the text
    ends with the line feed, [//# sourceMappingURL=] and the base name of
    the name of the map file. *)
Theorem comment_names_the_emitted_map (f : OutputFile) (files : list OutputFile)
    (o : IOptions) (s m : OutputFile) :
  (transformFile f files o).1 = inr [s; m] -> endsWith (name f) "/" = false ->
  exists code,
    text s = code +:+ LF +:+ "//# sourceMappingURL=" +:+ basename (name m) /\
    endsWith (text s) (LF +:+ "//# sourceMappingURL=" +:+ basename (name m)) = true.
Proof.
  intros Ht Hn. destruct (transformFile_emitted _ _ _ _ Ht) as [r Hr].
  unfold emitted in Hr.
  destruct (findSourceMapFile f files) as [mf|] eqn:Hm; [|done].
  destruct (ToBoolean (babel.map r)); [|done].
  injection Hr as -> ->. simpl.
  destruct (findSourceMapFile_Some _ _ _ Hm) as [_ ->].
  rewrite basename_map_suffix by done.
  exists (babel.code r). split; [done|].
  apply endsWith_iff. by exists (babel.code r).
Qed.

End CommentTarget.

(** ** The debug entry point and its hooks *)

Lemma Promise_all_all_resolved {A} (ps : list (Promise A)) (l : list A) :
  Promise_all ps = Resolved l -> Forall (fun p => isResolved p = true) ps.
Proof.
  revert l. induction ps as [|p ps IH]; intros l; simpl; [constructor|].
  destruct p as [a|e]; [|done].
  destruct (Promise_all ps) as [l'|e] eqn:Hps; [|done].
  intros _. constructor; [done|]. by eapply IH.
Qed.

Lemma Promise_all_hook_rejected {A} (hook : OutputFile -> Promise A)
    (files : list OutputFile) :
  Exists (fun x => isResolved (hook x) = false) files ->
  exists f e, f ∈ files /\ hook f = Rejected e /\
              Promise_all (List.map hook files) = Rejected e.
Proof.
  induction files as [|x files IH]; intros Hex; [by inversion Hex|].
  simpl. destruct (hook x) as [a|e] eqn:Hx.
  - inversion Hex as [? ? Hhd|? ? Htl]; subst.
    + by rewrite Hx in Hhd.
    + destruct (IH Htl) as (f & e & Hf & Hr & ->).
      exists f, e. split; [by apply elem_of_cons; right|done].
  - exists x, e. split; [by apply elem_of_cons; left|done].
Qed.

Lemma Promise_all_hook_resolved {A} (hook : OutputFile -> Promise A)
    (files : list OutputFile) :
  Forall (fun x => isResolved (hook x) = true) files ->
  exists l, Promise_all (List.map hook files) = Resolved l.
Proof.
  induction 1 as [|f fs Hf _ [l IH]]; simpl; [by eexists|].
  destruct (hook f) as [a|e0]; [|done]. rewrite IH. by eexists.
Qed.

Section Hooks.
Context `{Host}.

Lemma batchTransformDebug_unfold (ep : EntryPoint) {A B} (files : list OutputFile)
    (debugInput : OutputFile -> Promise A) (debugOutput : OutputFile -> Promise B)
    (o : IOptions) :
  batchTransformDebug ep files debugInput debugOutput o
  = match Promise_all (List.map debugInput files) with
    | Rejected e => (Rejected e, o)
    | Resolved _ =>
        match batchTransform ep files o with
        | (Rejected e, o') => (Rejected e, o')
        | (Resolved out, o') =>
            match Promise_all (List.map debugOutput out) with
            | Rejected e => (Rejected e, o')
            | Resolved _ => (Resolved out, o')
            end
        end
    end.
Proof.
  destruct ep; simpl;
    unfold SrcIndex.babelTransformDebug, BabelPlugin.babelTransformDebug, then_, settled;
    by destruct (Promise_all (List.map debugInput files)).
Qed.

(** X13.  When some input hook rejects, the debug entry point rejects with
    the reason of a rejecting input hook, whichever of them it is; the
    transform does not run and the options object is left untouched. *)
Theorem rejecting_input_hook_stops_everything (ep : EntryPoint) {A B}
    (files : list OutputFile)
    (debugInput : OutputFile -> Promise A) (debugOutput : OutputFile -> Promise B)
    (o : IOptions) :
  Exists (fun x => isResolved (debugInput x) = false) files ->
  exists f e,
    f ∈ files /\ debugInput f = Rejected e /\
    batchTransformDebug ep files debugInput debugOutput o = (Rejected e, o).
Proof.
  intros Hex. rewrite batchTransformDebug_unfold.
  destruct (Promise_all_hook_rejected debugInput files Hex) as (f & e & Hf & Hr & ->).
  by exists f, e.
Qed.

(** X14.  The hooks cannot change the result: when the debug entry point
    resolves, it resolves with the very batch the plain batch transform
    resolves with on the same input and leaves the options as the plain
    transform does; every input hook and every output hook resolved. *)
Theorem resolved_debug_is_plain_result (ep : EntryPoint) {A B} (files : list OutputFile)
    (debugInput : OutputFile -> Promise A) (debugOutput : OutputFile -> Promise B)
    (o : IOptions) (out : list OutputFile) :
  (batchTransformDebug ep files debugInput debugOutput o).1 = Resolved out ->
  batchTransformDebug ep files debugInput debugOutput o = batchTransform ep files o /\
  Forall (fun x => isResolved (debugInput x) = true) files /\
  Forall (fun x => isResolved (debugOutput x) = true) out.
Proof.
  rewrite batchTransformDebug_unfold.
  destruct (Promise_all (List.map debugInput files)) as [l|e] eqn:Hin; [|done].
  destruct (batchTransform ep files o) as [[out'|e] o'] eqn:Hrun; [|done].
  destruct (Promise_all (List.map debugOutput out')) as [l'|e] eqn:Hout; [|done].
  simpl. intros [= ->]. split; [done|].
  apply Promise_all_all_resolved in Hin, Hout.
  by rewrite Forall_map in Hin, Hout.
Qed.

(** X15.  An output hook that rejects does so after the transform has run:
    when every input hook resolves, the plain batch transform resolves and
    some output hook rejects on one of its files, the debug entry point
    rejects with the reason of a rejecting output hook, whichever of them it
    is, yet the options object is left as the plain batch transform leaves
    it. *)
Theorem rejecting_output_hook_keeps_effects (ep : EntryPoint) {A B}
    (files : list OutputFile)
    (debugInput : OutputFile -> Promise A) (debugOutput : OutputFile -> Promise B)
    (o : IOptions) (out : list OutputFile) :
  Forall (fun f => isResolved (debugInput f) = true) files ->
  (batchTransform ep files o).1 = Resolved out ->
  Exists (fun y => isResolved (debugOutput y) = false) out ->
  exists x e,
    x ∈ out /\ debugOutput x = Rejected e /\
    batchTransformDebug ep files debugInput debugOutput o
    = (Rejected e, (batchTransform ep files o).2).
Proof.
  intros Hin Hrun Hex. rewrite batchTransformDebug_unfold.
  destruct (Promise_all_hook_resolved debugInput files Hin) as [l ->].
  destruct (batchTransform ep files o) as [[out'|e'] o'] eqn:Hbt;
    simpl in Hrun; [|done].
  injection Hrun as ->.
  destruct (Promise_all_hook_rejected debugOutput out Hex) as (x & e & Hx & Hr & ->).
  by exists x, e.
Qed.

End Hooks.

(** ** Loading a plugin *)

Section Loader.
Import PluginSetup.
Variable env : ModuleEnv.

Lemma loop_left_without_module (fuel : nat) (id : string) (plugin : Value) :
  loadBabelPlugin_loop fuel env id plugin None = Some plugin.
Proof. by destruct fuel. Qed.

Lemma loop_left_with_plugin (fuel : nat) (id : string) (plugin : Value)
    (fromModule : FromModule) :
  ToBoolean plugin = true ->
  loadBabelPlugin_loop fuel env id plugin fromModule = Some plugin.
Proof.
  intros Hp. destruct fromModule as [[isModule require]|];
    [|apply loop_left_without_module].
  destruct fuel; simpl; by rewrite Hp.
Qed.

Lemma loop_never_left (fuel : nat) (id : string) (plugin v : Value) (isModule : bool)
    (require : string -> option Value) :
  ToBoolean plugin = false -> require id = Some v -> ToBoolean v = false ->
  loadBabelPlugin_loop fuel env id plugin (Some (isModule, require)) = None.
Proof.
  intros Hp Hr Hv. revert plugin Hp.
  induction fuel as [|fuel IH]; intros plugin Hp; simpl; rewrite Hp; [done|].
  rewrite Hr. by apply IH.
Qed.

(** One round of the loop on a module whose exports are truthy, started
    without a plugin: the first candidate the module resolves, or a move to
    the next module. *)
Lemma loop_round (fuel : nat) (id : string) (isModule : bool)
    (require : string -> option Value) :
  (forall s v, require s = Some v -> ToBoolean v = true) ->
  loadBabelPlugin_loop (S fuel) env id VNull (Some (isModule, require))
  = match firstLoaded require (candidates id) with
    | Some v => Some v
    | None =>
        loadBabelPlugin_loop fuel env id VNull
          (if isModule then option_map (fun r => (false, r)) (module_parent env)
           else None)
    end.
Proof.
  intros Htruthy. simpl. unfold candidates.
  destruct (require id) as [v|] eqn:Hid.
  - rewrite loop_left_with_plugin by eauto.
    destruct (String.prefix prefix id); simpl; by rewrite Hid.
  - destruct (String.prefix prefix id); simpl; rewrite Hid; [done|].
    destruct (require (prefix +:+ id)) as [v|] eqn:Hpid; [|done].
    rewrite (Htruthy _ _ Hpid). simpl.
    by rewrite loop_left_with_plugin by eauto.
Qed.

Lemma loadBabelPlugin_resolves (fuel : nat) (id : string) :
  truthyExports env -> 2 <= fuel ->
  loadBabelPlugin fuel env id = Some (resolve_spec env id).
Proof.
  intros [Hself Hparent] Hfuel.
  destruct fuel as [|[|fuel]]; [lia..|].
  unfold loadBabelPlugin, resolve_spec.
  rewrite loop_round by done.
  destruct (firstLoaded (module_require env) (candidates id)) as [v|] eqn:Hs.
  - assert (Hv : ToBoolean v = true); [|by rewrite Hv].
    clear -Hs Hself. unfold candidates in Hs.
    destruct (String.prefix prefix id); simpl in Hs;
      repeat (match type of Hs with
              | context [module_require env ?s] =>
                  destruct (module_require env s) eqn:?
              end); simplify_eq; eauto.
  - destruct (module_parent env) as [parent_require|] eqn:Hp; cbn [option_map].
    + rewrite loop_round by eauto.
      destruct (firstLoaded parent_require (candidates id)) as [v|] eqn:Hq.
      * assert (Hv : ToBoolean v = true); [|by rewrite Hv].
        clear -Hq Hparent Hp. unfold candidates in Hq.
        destruct (String.prefix prefix id); simpl in Hq;
          repeat (match type of Hq with
                  | context [parent_require ?s] =>
                      destruct (parent_require s) eqn:?
                  end); simplify_eq; eauto.
      * by rewrite loop_left_without_module.
    + by rewrite loop_left_without_module.
Qed.

(** X16.  When every module that loads exports a truthy value, the loop of
    [loadBabelPlugin] ends within two rounds and the function is an ordered
    search: this module is asked for the identifier and then, unless the
    identifier already starts with [babel-plugin-], for the prefixed
    identifier; then the parent module is asked the same way; no other
    module is asked.  The first answer is returned; the error
    [Unable to load Babel plugin '<id>'] is thrown only when neither module
    resolves any of the identifiers. *)
Theorem loadBabelPlugin_ordered_search (fuel : nat) (id : string) :
  truthyExports env -> 2 <= fuel ->
  loadBabelPlugin fuel env id = Some (resolve_spec env id) /\
  (forall msg, loadBabelPlugin fuel env id = Some (inl msg) ->
     msg = "Unable to load Babel plugin '" +:+ id +:+ "'" /\
     firstLoaded (module_require env) (candidates id) = None /\
     forall parent_require, module_parent env = Some parent_require ->
       firstLoaded parent_require (candidates id) = None).
Proof.
  intros Ht Hf. rewrite loadBabelPlugin_resolves by done. split; [done|].
  intros msg [= Hr]. unfold resolve_spec in Hr.
  destruct (firstLoaded (module_require env) (candidates id)); [done|].
  destruct (module_parent env) as [parent_require|].
  - destruct (firstLoaded parent_require (candidates id)) eqn:Hq; [done|].
    injection Hr as <-. repeat split. by intros ? [= <-].
  - by injection Hr as <-.
Qed.

(** X17.  A module that loads but exports a falsy value ([0], [null],
    [false], the empty string) sends [loadBabelPlugin] into a loop it never
    leaves: the [require] does not throw, so [fromModule] is not advanced,
    and [plugin] stays falsy.  This holds for the module itself and, once
    the module itself has resolved nothing, for its parent. *)
Theorem loadBabelPlugin_falsy_export_never_ends (id : string) (v : Value) :
  ToBoolean v = false ->
  (module_require env id = Some v ->
   forall fuel, loadBabelPlugin fuel env id = None) /\
  (forall parent_require,
     firstLoaded (module_require env) (candidates id) = None ->
     module_parent env = Some parent_require -> parent_require id = Some v ->
     forall fuel, loadBabelPlugin fuel env id = None).
Proof.
  intros Hv. split.
  - intros Hr fuel. unfold loadBabelPlugin.
    by rewrite (loop_never_left fuel id VNull v true (module_require env)).
  - intros parent_require Hs Hp Hr fuel. unfold loadBabelPlugin.
    destruct fuel as [|fuel]; [done|]. simpl.
    unfold candidates in Hs.
    destruct (module_require env id) eqn:Hid;
      [destruct (String.prefix prefix id); simpl in Hs; by rewrite Hid in Hs|].
    destruct (String.prefix prefix id); simpl in Hs; rewrite Hid in Hs; simpl.
    + rewrite Hp. simpl.
      by rewrite (loop_never_left fuel id VNull v false parent_require).
    + destruct (module_require env (prefix +:+ id)); [done|]. simpl.
      rewrite Hp. simpl.
      by rewrite (loop_never_left fuel id VNull v false parent_require).
Qed.

End Loader.

(** ** Building the plugin object *)

Section Setup.
Import PluginSetup.
Variable env : ModuleEnv.

Lemma overrides_run (o : IOptions) :
  (extend overrides o).2
  = <["shouldPrintComment" :=
        VFunction (fun comment => negb (isSourceMappingURLComment comment))]>
      (<["ast" := VBool false]> o).
Proof. reflexivity. Qed.

(** X18.  Without node module resolution (the option absent or falsy),
    [createPlugin] loads nothing and cannot fail: the plugin's options
    object is a copy of the caller's options without
    [enableNodeModuleResolution], with [ast] set to [false] and
    [shouldPrintComment] set to the filter of map-reference comments
    whatever the caller had put there, and with every other property,
    [plugins] included, as the caller gave it. *)
Theorem createPlugin_without_resolution (fuel : nat) (options : IOptions) :
  ToBoolean (default VUndefined (options !! "enableNodeModuleResolution")) = false ->
  exists babelOptions,
    createPlugin fuel env options = Some (inr babelOptions) /\
    babelOptions !! "enableNodeModuleResolution" = None /\
    babelOptions !! "ast" = Some (VBool false) /\
    babelOptions !! "shouldPrintComment"
    = Some (VFunction (fun comment => negb (isSourceMappingURLComment comment))) /\
    forall k, k <> "enableNodeModuleResolution" -> k <> "ast" ->
              k <> "shouldPrintComment" -> babelOptions !! k = options !! k.
Proof.
  intros He. unfold createPlugin, new_BabelPlugin. rewrite He.
  eexists. split; [done|]. rewrite overrides_run.
  repeat split; try (by simplify_map_eq).
  intros k H1 H2 H3. by simplify_map_eq.
Qed.

Lemma loadPlugins_spec (fuel : nat) (plugins : list Value) :
  truthyExports env -> 2 <= fuel ->
  match loadPlugins fuel env plugins with
  | Some (inr loaded) => Forall2 (loadedAs env) plugins loaded
  | Some (inl msg) =>
      exists pre id post,
        plugins = pre ++ VString id :: post /\
        resolve_spec env id = inl msg /\
        msg = "Unable to load Babel plugin '" +:+ id +:+ "'" /\
        exists loaded, Forall2 (loadedAs env) pre loaded
  | None => False
  end.
Proof.
  intros Ht Hf. induction plugins as [|p plugins IH]; simpl; [constructor|].
  assert (Hstr : forall id, loadBabelPlugin fuel env id = Some (resolve_spec env id))
    by (intros id; by apply loadBabelPlugin_resolves).
  assert (Hone : exists r,
    (match p with VString id => loadBabelPlugin fuel env id | _ => Some (inr p) end)
    = Some r /\
    match r with
    | inr v => loadedAs env p v
    | inl msg => exists id, p = VString id /\ resolve_spec env id = inl msg
    end).
  { destruct p; try (eexists; split; [done|done]).
    rewrite Hstr. eexists. split; [done|].
    destruct (resolve_spec env s) as [msg|v] eqn:Hr; simpl; [by exists s|done]. }
  destruct Hone as (r & -> & Hr).
  destruct r as [msg|v].
  - destruct Hr as (id & -> & Hr). exists [], id, plugins.
    repeat split; [done| |by exists []].
    unfold resolve_spec in Hr.
    repeat (match type of Hr with
            | context [match ?x with _ => _ end] => destruct x
            end); by simplify_eq.
  - destruct (loadPlugins fuel env plugins) as [[msg|vs]|]; [| |done].
    + destruct IH as (pre & id & post & -> & Hr' & Hmsg & loaded & Hl).
      exists (p :: pre), id, post. repeat split; [done..|].
      exists (v :: loaded). by constructor.
    + by constructor.
Qed.


(** X19.  With node module resolution on and [plugins] an array, and every
    module that loads exporting a truthy value, [createPlugin] either
    succeeds, and then [plugins] has become the array of the same length in
    which each string is replaced by the plugin the ordered search resolves
    for it and every other element is kept, or throws the error of the first
    string, in array order, that the search does not resolve: neither this
    module nor its parent, when it has one, loads the identifier or its
    prefixed form, and every string before it is resolved. *)
Theorem createPlugin_with_resolution (fuel : nat) (options : IOptions)
    (plugins : list Value) :
  truthyExports env -> 2 <= fuel ->
  ToBoolean (default VUndefined (options !! "enableNodeModuleResolution")) = true ->
  options !! "plugins" = Some (VArray plugins) ->
  (exists babelOptions loaded,
     createPlugin fuel env options = Some (inr babelOptions) /\
     babelOptions !! "plugins" = Some (VArray loaded) /\
     length loaded = length plugins /\
     Forall2 (loadedAs env) plugins loaded) \/
  (exists pre id post,
     createPlugin fuel env options
     = Some (inl (SetupError ("Unable to load Babel plugin '" +:+ id +:+ "'"))) /\
     plugins = pre ++ VString id :: post /\
     resolve_spec env id = inl ("Unable to load Babel plugin '" +:+ id +:+ "'") /\
     firstLoaded (module_require env) (candidates id) = None /\
     (forall parent_require, module_parent env = Some parent_require ->
        firstLoaded parent_require (candidates id) = None) /\
     exists loaded, Forall2 (loadedAs env) pre loaded).
Proof.
  intros Ht Hf He Hp. unfold createPlugin, new_BabelPlugin. rewrite He.
  rewrite lookup_delete_ne by done. rewrite Hp.
  pose proof (loadPlugins_spec fuel plugins Ht Hf) as Hl.
  destruct (loadPlugins fuel env plugins) as [[msg|loaded]|]; [| |done].
  - right. destruct Hl as (pre & id & post & -> & Hr & -> & loaded & Hl).
    exists pre, id, post. split; [done|]. split; [done|]. split; [done|].
    unfold resolve_spec in Hr.
    destruct (firstLoaded (module_require env) (candidates id)); [done|].
    split; [done|]. split; [|by exists loaded].
    intros parent_require Hparent. rewrite Hparent in Hr.
    by destruct (firstLoaded parent_require (candidates id)).
  - left. eexists _, loaded. split; [done|]. rewrite overrides_run.
    split; [by simplify_map_eq|]. split; [|done].
    symmetry. by eapply Forall2_length.
Qed.

(** X20.  With node module resolution on and no [plugins] in the options
    (or [plugins] set to [undefined] or [null]), [createPlugin] throws a
    [TypeError] before anything is loaded. *)
Theorem createPlugin_resolution_needs_plugins (fuel : nat) (options : IOptions) :
  ToBoolean (default VUndefined (options !! "enableNodeModuleResolution")) = true ->
  options !! "plugins" = None \/ options !! "plugins" = Some VUndefined \/
  options !! "plugins" = Some VNull ->
  createPlugin fuel env options = Some (inl SetupTypeError).
Proof.
  intros He Hp. unfold createPlugin, new_BabelPlugin. rewrite He.
  rewrite lookup_delete_ne by done.
  by destruct Hp as [->|[->| ->]].
Qed.

End Setup.

Section PluginLife.
Import PluginSetup.
Context `{Host}.

Lemma afterInvocations_frame (batches : list (list OutputFile)) (o : IOptions) :
  agree o (afterInvocations batches o).
Proof.
  unfold afterInvocations. revert o.
  induction batches as [|files batches IH]; intros o; simpl; [apply agree_refl|].
  eapply agree_trans; [|apply IH].
  apply (batchTransform_frame PluginClass files o).
Qed.

(** X21.  What [createPlugin] sets up lasts for the life of the plugin:
    after any number of [babelTransform] invocations on any batches,
    resolved or rejected, the plugin's options object still has no
    [enableNodeModuleResolution], still has [ast] set to [false] and
    [shouldPrintComment] set to the comment filter, and still holds the
    [plugins] the constructor left. *)
Theorem plugin_setup_lasts (fuel : nat) (env : ModuleEnv) (options babelOptions : IOptions)
    (batches : list (list OutputFile)) :
  createPlugin fuel env options = Some (inr babelOptions) ->
  let o := afterInvocations batches babelOptions in
  o !! "enableNodeModuleResolution" = None /\
  o !! "ast" = Some (VBool false) /\
  o !! "shouldPrintComment"
  = Some (VFunction (fun comment => negb (isSourceMappingURLComment comment))) /\
  o !! "plugins" = babelOptions !! "plugins".
Proof.
  intros Hc o. pose proof (afterInvocations_frame batches babelOptions) as Hfr.
  fold o in Hfr.
  assert (Hst : babelOptions !! "enableNodeModuleResolution" = None /\
                babelOptions !! "ast" = Some (VBool false) /\
                babelOptions !! "shouldPrintComment"
                = Some (VFunction (fun comment => negb (isSourceMappingURLComment comment)))).
  { unfold createPlugin, new_BabelPlugin in Hc.
    destruct (ToBoolean _).
    - destruct (delete "enableNodeModuleResolution" options !! "plugins")
        as [[| | | | |ps| | |]|]; try done.
      destruct (loadPlugins fuel env ps) as [[msg|loaded]|]; try done.
      injection Hc as <-. repeat split; by simplify_map_eq.
    - injection Hc as <-. repeat split; by simplify_map_eq. }
  destruct Hst as (H1 & H2 & H3).
  rewrite <- !Hfr by not_managed. done.
Qed.

End PluginLife.

(** ** The TypeScript text of the class against its JavaScript *)

Lemma reduce_ext_in {A B} (cb cb' : B -> A -> M B) (xs : list A) (acc : B) (o : IOptions) :
  (forall x, x ∈ xs -> forall acc o, cb acc x o = cb' acc x o) ->
  reduce cb xs acc o = reduce cb' xs acc o.
Proof.
  revert acc o. induction xs as [|x xs IH]; intros acc o Hcb; simpl; [done|].
  unfold bind. rewrite Hcb by (by left).
  destruct (cb' acc x o) as [[e|acc'] o1]; [done|].
  apply IH. intros y Hy. apply Hcb. by right.
Qed.

Lemma in_order_skip (g : OutputFile -> Promise (list OutputFile))
    (keep : OutputFile -> bool) (files : list OutputFile) :
  (forall f, keep f = false -> g f = Resolved []) ->
  in_order (List.map g files) = in_order (List.map g (List.filter keep files)).
Proof.
  intros Hg. induction files as [|f files IH]; simpl; [done|].
  change (g f :: List.map g files) with ([g f] ++ List.map g files).
  rewrite in_order_app, IH.
  destruct (keep f) eqn:Hk; simpl.
  - change (g f :: List.map g (List.filter keep files))
      with ([g f] ++ List.map g (List.filter keep files)).
    by rewrite in_order_app.
  - rewrite (Hg f Hk). unfold in_order. simpl.
    by destruct (Promise_all _).
Qed.

Lemma filter_filter_implied {A} (P keep : A -> bool) (l : list A) :
  (forall x, P x = true -> keep x = true) ->
  List.filter P (List.filter keep l) = List.filter P l.
Proof.
  intros Himp. induction l as [|x l IH]; simpl; [done|].
  destruct (keep x) eqn:Hk; simpl.
  - by rewrite IH.
  - destruct (P x) eqn:Hp; [|done]. apply Himp in Hp. congruence.
Qed.

(** The files the TypeScript text does not drop for their suffix alone. *)
Lemma findSourceMapFile_without_others (f : OutputFile) (files : list OutputFile) :
  findSourceMapFile f
    (List.filter (fun g => match classify_spec (name g) with
                           | PassedThrough => false
                           | _ => true
                           end) files)
  = findSourceMapFile f files.
Proof.
  unfold findSourceMapFile. destruct (endsWith (name f) ".map"); simpl; [done|].
  rewrite filter_filter_implied; [done|].
  intros g Hg%String.eqb_eq. unfold classify_spec.
  by rewrite Hg, endsWith_app_map.
Qed.

Section Variants.
Context `{Host}.

Lemma ts_step_isolated (files : list OutputFile) : isolated (ts_step files).
Proof.
  intros f o o' Ha. unfold ts_step.
  destruct (BabelPlugin.shouldTransformFile (name f));
    [by apply transformFile_isolated|].
  split; [done|apply agree_refl].
Qed.

Lemma ts_babelTransform_pieces (files : list OutputFile) (o : IOptions) :
  (BabelPluginTs.babelTransform files o).1 = in_order (List.map (ts_piece files o) files).
Proof.
  unfold BabelPluginTs.babelTransform. rewrite Promise_resolve_then_settle.
  rewrite (reduce_ext _ (collect (ts_step files))).
  - rewrite (reduce_collect (ts_step files) files (ts_step_isolated files) [] o o)
      by apply agree_refl.
    replace (List.map (fun f => settle (ts_step files f o).1) files)
      with (List.map (ts_piece files o) files).
    + by destruct (in_order _).
    + apply map_ext. intros f. unfold ts_piece, ts_step.
      by destruct (BabelPlugin.shouldTransformFile (name f)).
  - intros acc f o'. unfold collect, ts_step, bind, ret.
    destruct (BabelPlugin.shouldTransformFile (name f)); [done|].
    by rewrite app_nil_r.
Qed.

(** X22.  On a batch in which every file is a script ([.js], [.jsx]) or a
    map ([.map]), the [babelTransform] of the TypeScript text and the one of
    the JavaScript do the same: the same promise and the same options
    afterwards. *)
Theorem variants_agree_without_other_files (files : list OutputFile) (o : IOptions) :
  Forall (fun f => classify_spec (name f) <> PassedThrough) files ->
  BabelPluginTs.babelTransform files o = BabelPlugin.babelTransform files o.
Proof.
  intros Hall.
  unfold BabelPluginTs.babelTransform, BabelPlugin.babelTransform, Promise_resolve_then.
  erewrite reduce_ext_in; [reflexivity|]. intros f Hf acc o'. simpl.
  rewrite Forall_forall in Hall. specialize (Hall f Hf).
  rewrite classify_spec_plugin in Hall.
  destruct (BabelPlugin.shouldTransformFile (name f)); [done|].
  by destruct (BabelPlugin.shouldDiscardFile (name f)).
Qed.

(** X23.  The two differ in the other files only: the TypeScript text drops
    them where the JavaScript passes them through.  On any batch the
    TypeScript text settles as the JavaScript does on the batch from which
    the files that are neither scripts nor maps have been removed. *)
Theorem typescript_variant_drops_other_files (files : list OutputFile) (o : IOptions) :
  (BabelPluginTs.babelTransform files o).1
  = (BabelPlugin.babelTransform
       (List.filter (fun f => match classify_spec (name f) with
                              | PassedThrough => false
                              | _ => true
                              end) files) o).1.
Proof.
  set (keep := fun f => match classify_spec (name f) with
                        | PassedThrough => false
                        | _ => true
                        end).
  rewrite ts_babelTransform_pieces, plugin_babelTransform_pieces.
  rewrite (in_order_skip (ts_piece files o) keep).
  - f_equal. apply map_ext_in. intros f Hf%filter_In.
    destruct Hf as [_ Hk]. unfold keep in Hk.
    unfold ts_piece, plugin_piece.
    rewrite classify_spec_plugin in *.
    destruct (BabelPlugin.shouldTransformFile (name f)).
    + f_equal. f_equal. apply transformFile_context.
      symmetry. apply findSourceMapFile_without_others.
    + by destruct (BabelPlugin.shouldDiscardFile (name f)).
  - intros f Hk. unfold keep in Hk. unfold ts_piece.
    rewrite classify_spec_plugin in Hk.
    by destruct (BabelPlugin.shouldTransformFile (name f)).
Qed.

End Variants.

(** ** The further properties at work on the demonstration host *)

Lemma demo_env_truthy : truthyExports demo_env.
Proof.
  split.
  - intros id v. simpl. destruct (String.eqb id "babel-plugin-foo"); [|done].
    by intros [= <-].
  - intros parent_require [= <-] id v.
    destruct (String.eqb id "babel-plugin-bar"); [by intros [= <-]|].
    destruct (String.eqb id "baz"); [by intros [= <-]|done].
Qed.

Lemma transformFile_writes_managed_only_witness :
  (transformFile (H := demo_host) a_js [a_js; a_js_map] plain_options).2 !! "plugins"
  = plain_options !! "plugins".
Proof.
  apply (transformFile_writes_managed_only (H := demo_host) a_js [a_js; a_js_map]
           plain_options "plugins").
  not_managed.
Defined.

Lemma transformFile_ignores_stale_fields_witness :
  (transformFile (H := demo_host) b_js [b_js] plain_options).1
  = (transformFile (H := demo_host) b_js [b_js]
       (delete "sourceRoot" plain_options)).1.
Proof.
  apply (transformFile_ignores_stale_fields (H := demo_host) b_js [b_js] plain_options
           (delete "sourceRoot" plain_options)).
  intros k Hk. rewrite lookup_delete_ne; [reflexivity|].
  intros <-. apply Hk. unfold managedKeys. repeat constructor.
Defined.

Lemma located_map_is_never_a_source_witness :
  a_js_map ∈ [b_js; a_js; a_js_map] /\ a_js_map <> a_js /\
  endsWith (name a_js_map) ".map" = true /\
  forall ep, transforms ep (name a_js_map) = false.
Proof.
  apply (located_map_is_never_a_source a_js a_js_map [b_js; a_js; a_js_map]).
  reflexivity.
Defined.

Lemma output_names_come_from_input_witness :
  exists f, f ∈ [a_js_map; a_js] /\
            name (mkOutputFile "a.js.map" "{...}" false) = name f /\
            writeByteOrderMark (mkOutputFile "a.js.map" "{...}" false)
            = writeByteOrderMark f.
Proof.
  apply (output_names_come_from_input (H := demo_host) PluginClass [a_js_map; a_js] ∅
           [ mkOutputFile "a.js" ("T(let a)" +:+ LF +:+ "//# sourceMappingURL=a.js.map") true;
             mkOutputFile "a.js.map" "{...}" false ]).
  - vm_compute. reflexivity.
  - apply elem_of_cons. right. apply elem_of_cons. left. reflexivity.
Defined.

Lemma output_maps_follow_their_source_witness :
  exists pre' s,
    [ d_txt;
      mkOutputFile "a.js" ("T(let a)" +:+ LF +:+ "//# sourceMappingURL=a.js.map") true ]
    = pre' ++ [s] /\
    name (mkOutputFile "a.js.map" "{...}" false) = name s +:+ ".map" /\
    endsWith (name s) ".map" = false.
Proof.
  apply (output_maps_follow_their_source (H := demo_host) PluginClass
           [a_js_map; d_txt; a_js] ∅
           [ d_txt;
             mkOutputFile "a.js" ("T(let a)" +:+ LF +:+ "//# sourceMappingURL=a.js.map") true;
             mkOutputFile "a.js.map" "{...}" false ])
    with (post := []).
  - vm_compute. reflexivity.
  - reflexivity.
  - reflexivity.
Defined.

Lemma batchTransform_app_witness :
  (batchTransform (H := demo_host) FunctionStyle ([a_js; a_js_map] ++ [c_js_map; c_js]) ∅).1
  = Promise_append (batchTransform (H := demo_host) FunctionStyle [a_js; a_js_map] ∅).1
                   (batchTransform (H := demo_host) FunctionStyle [c_js_map; c_js] ∅).1.
Proof.
  apply (batchTransform_app (H := demo_host) FunctionStyle [a_js; a_js_map]
           [c_js_map; c_js] ∅).
  - intros f Hf. repeat (apply elem_of_cons in Hf as [->|Hf]; [reflexivity|]).
    by apply elem_of_nil in Hf.
  - intros f Hf. repeat (apply elem_of_cons in Hf as [->|Hf]; [reflexivity|]).
    by apply elem_of_nil in Hf.
Defined.

Lemma batch_of_maps_gives_nothing_witness :
  batchTransform (H := demo_host) PluginClass [a_js_map; f_js_map] plain_options
  = (Resolved [], plain_options).
Proof.
  apply (batch_of_maps_gives_nothing (H := demo_host) PluginClass
           [a_js_map; f_js_map] plain_options).
  repeat constructor.
Defined.

Lemma truthy_map_without_sources_throws_witness :
  (transformFile (H := demo_host) a_js [a_js; a_js_map_empty] plain_options).1
  = inl TypeError /\
  (transformFile (H := demo_host) a_js [a_js; a_js_map_empty] plain_options).2
    !! "sourceMaps" = Some (VBool true).
Proof.
  destruct (truthy_map_without_sources_throws (H := demo_host) a_js
              [a_js; a_js_map_empty] plain_options) as [Hiff Hstate].
  assert (Hthrow : (transformFile (H := demo_host) a_js [a_js; a_js_map_empty]
                      plain_options).1 = inl TypeError).
  { apply Hiff. exists a_js_map_empty, (VObject []).
    repeat split; try reflexivity. left. reflexivity. }
  split; [exact Hthrow|]. apply (Hstate Hthrow).
Defined.

Lemma appended_comment_is_filtered_witness :
  exists code body,
    text (mkOutputFile "a.js" ("T(let a)" +:+ LF +:+ "//# sourceMappingURL=a.js.map") true)
    = code +:+ LF +:+ "//" +:+ body /\
    isSourceMappingURLComment body = true /\
    forall shouldPrintComment,
      ("shouldPrintComment", VFunction shouldPrintComment) ∈ SrcIndex.optionsOverride \/
      ("shouldPrintComment", VFunction shouldPrintComment) ∈ PluginSetup.overrides ->
      shouldPrintComment body = false.
Proof.
  apply (appended_comment_is_filtered (H := demo_host) a_js [a_js; a_js_map] ∅
           (mkOutputFile "a.js" ("T(let a)" +:+ LF +:+ "//# sourceMappingURL=a.js.map") true)
           (mkOutputFile "a.js.map" "{...}" false)).
  vm_compute. reflexivity.
Defined.

Lemma comment_names_the_emitted_map_witness :
  exists code,
    text (mkOutputFile "lib/a.js"
            ("T(let a)" +:+ LF +:+ "//# sourceMappingURL=a.js.map") true)
    = code +:+ LF +:+ "//# sourceMappingURL="
      +:+ basename (name (mkOutputFile "lib/a.js.map" "{...}" false)) /\
    endsWith
      (text (mkOutputFile "lib/a.js"
               ("T(let a)" +:+ LF +:+ "//# sourceMappingURL=a.js.map") true))
      (LF +:+ "//# sourceMappingURL="
       +:+ basename (name (mkOutputFile "lib/a.js.map" "{...}" false))) = true.
Proof.
  apply (comment_names_the_emitted_map (H := demo_host)
           (mkOutputFile "lib/a.js" "let a" true)
           [mkOutputFile "lib/a.js" "let a" true; mkOutputFile "lib/a.js.map" "MAP" false]
           ∅).
  - vm_compute. reflexivity.
  - reflexivity.
Defined.

Lemma rejecting_input_hook_stops_everything_witness :
  exists f e,
    f ∈ [a_js; a_js_map; b_js; c_js] /\ demo_hook f = Rejected e /\
    batchTransformDebug (H := demo_host) FunctionStyle [a_js; a_js_map; b_js; c_js]
      demo_hook demo_map_hook plain_options
    = (Rejected e, plain_options).
Proof.
  apply (rejecting_input_hook_stops_everything (H := demo_host) FunctionStyle
           [a_js; a_js_map; b_js; c_js] demo_hook demo_map_hook plain_options).
  do 2 apply Exists_cons_tl. apply Exists_cons_hd. reflexivity.
Defined.

Lemma resolved_debug_is_plain_result_witness :
  batchTransformDebug (H := demo_host) PluginClass [d_txt; c_js] demo_hook demo_map_hook ∅
  = batchTransform (H := demo_host) PluginClass [d_txt; c_js] ∅ /\
  Forall (fun x => isResolved (demo_hook x) = true) [d_txt; c_js] /\
  Forall (fun x => isResolved (demo_map_hook x) = true)
    [d_txt; mkOutputFile "c.js" "T(let c)" false].
Proof.
  apply (resolved_debug_is_plain_result (H := demo_host) PluginClass [d_txt; c_js]
           demo_hook demo_map_hook ∅).
  vm_compute. reflexivity.
Defined.

Lemma rejecting_output_hook_keeps_effects_witness :
  exists x e,
    x ∈ [ mkOutputFile "a.js" ("T(let a)" +:+ LF +:+ "//# sourceMappingURL=a.js.map") true;
          mkOutputFile "a.js.map" "{...}" false ] /\
    demo_map_hook x = Rejected e /\
    batchTransformDebug (H := demo_host) PluginClass [a_js; a_js_map]
      demo_hook demo_map_hook ∅
    = (Rejected e, (batchTransform (H := demo_host) PluginClass [a_js; a_js_map] ∅).2).
Proof.
  apply (rejecting_output_hook_keeps_effects (H := demo_host) PluginClass
           [a_js; a_js_map] demo_hook demo_map_hook ∅).
  - repeat constructor.
  - vm_compute. reflexivity.
  - apply Exists_cons_tl. apply Exists_cons_hd. reflexivity.
Defined.

Lemma loadBabelPlugin_ordered_search_witness :
  PluginSetup.loadBabelPlugin 2 demo_env "bar" = Some (inr (VHost "bar")) /\
  PluginSetup.loadBabelPlugin 2 demo_env "qux"
  = Some (inl "Unable to load Babel plugin 'qux'").
Proof.
  destruct (loadBabelPlugin_ordered_search demo_env 2 "bar" demo_env_truthy (le_n 2))
    as [Hbar _].
  destruct (loadBabelPlugin_ordered_search demo_env 2 "qux" demo_env_truthy (le_n 2))
    as [Hqux _].
  split; [exact Hbar|exact Hqux].
Defined.

Lemma loadBabelPlugin_falsy_export_never_ends_witness :
  PluginSetup.loadBabelPlugin 1000 zero_env "zero" = None.
Proof.
  destruct (loadBabelPlugin_falsy_export_never_ends zero_env "zero" (VNumber 0%float)
              eq_refl) as [Hself _].
  apply Hself. reflexivity.
Defined.

Lemma createPlugin_without_resolution_witness :
  exists babelOptions,
    PluginSetup.createPlugin 0 demo_env plain_options = Some (inr babelOptions) /\
    babelOptions !! "enableNodeModuleResolution" = None /\
    babelOptions !! "ast" = Some (VBool false) /\
    babelOptions !! "shouldPrintComment"
    = Some (VFunction (fun comment => negb (isSourceMappingURLComment comment))) /\
    forall k, k <> "enableNodeModuleResolution" -> k <> "ast" ->
              k <> "shouldPrintComment" -> babelOptions !! k = plain_options !! k.
Proof.
  apply (createPlugin_without_resolution demo_env 0 plain_options). reflexivity.
Defined.

Lemma createPlugin_with_resolution_witness :
  (exists babelOptions loaded,
     PluginSetup.createPlugin 2 demo_env demo_options = Some (inr babelOptions) /\
     babelOptions !! "plugins" = Some (VArray loaded) /\
     length loaded = 3 /\
     Forall2 (loadedAs demo_env) [VString "foo"; VHost "inline"; VString "baz"] loaded) \/
  (exists pre id post,
     PluginSetup.createPlugin 2 demo_env demo_options
     = Some (inl (PluginSetup.SetupError ("Unable to load Babel plugin '" +:+ id +:+ "'"))) /\
     [VString "foo"; VHost "inline"; VString "baz"] = pre ++ VString id :: post /\
     resolve_spec demo_env id = inl ("Unable to load Babel plugin '" +:+ id +:+ "'") /\
     firstLoaded (PluginSetup.module_require demo_env) (candidates id) = None /\
     (forall parent_require, PluginSetup.module_parent demo_env = Some parent_require ->
        firstLoaded parent_require (candidates id) = None) /\
     exists loaded, Forall2 (loadedAs demo_env) pre loaded).
Proof.
  apply (createPlugin_with_resolution demo_env 2 demo_options
           [VString "foo"; VHost "inline"; VString "baz"] demo_env_truthy (le_n 2));
    reflexivity.
Defined.

Lemma createPlugin_resolution_needs_plugins_witness :
  PluginSetup.createPlugin 2 demo_env (<["enableNodeModuleResolution" := VBool true]> ∅)
  = Some (inl PluginSetup.SetupTypeError).
Proof.
  apply (createPlugin_resolution_needs_plugins demo_env 2
           (<["enableNodeModuleResolution" := VBool true]> ∅)).
  - reflexivity.
  - left. reflexivity.
Defined.

Lemma plugin_setup_lasts_witness :
  let o := afterInvocations (H := demo_host)
             [[a_js; a_js_map]; [b_js; a_js_map_broken; a_js]] demo_plugin_options in
  o !! "enableNodeModuleResolution" = None /\
  o !! "ast" = Some (VBool false) /\
  o !! "shouldPrintComment"
  = Some (VFunction (fun comment => negb (isSourceMappingURLComment comment))) /\
  o !! "plugins" = demo_plugin_options !! "plugins".
Proof.
  apply (plugin_setup_lasts (H := demo_host) 2 demo_env demo_options demo_plugin_options
           [[a_js; a_js_map]; [b_js; a_js_map_broken; a_js]]).
  vm_compute. reflexivity.
Defined.

Lemma variants_agree_without_other_files_witness :
  BabelPluginTs.babelTransform (H := demo_host) [a_js_map; a_js; e_jsx] ∅
  = BabelPlugin.babelTransform (H := demo_host) [a_js_map; a_js; e_jsx] ∅.
Proof.
  apply (variants_agree_without_other_files (H := demo_host) [a_js_map; a_js; e_jsx] ∅).
  repeat constructor; discriminate.
Defined.

(** ** Further runs of the rest of the code *)

Example load_prefixed_from_own_module :
  PluginSetup.loadBabelPlugin 2 demo_env "foo" = Some (inr (VHost "foo")).
Proof. reflexivity. Qed.

Example load_bare_from_parent :
  PluginSetup.loadBabelPlugin 2 demo_env "baz" = Some (inr (VHost "baz")).
Proof. reflexivity. Qed.

Example createPlugin_loads :
  (fun r => match r with
            | Some (inr o) => o !! "plugins"
            | _ => None
            end) (PluginSetup.createPlugin 2 demo_env demo_options)
  = Some (VArray [VHost "foo"; VHost "inline"; VHost "baz"]).
Proof. vm_compute. reflexivity. Qed.

Example typescript_text_drops_d_txt :
  (BabelPluginTs.babelTransform (H := demo_host) [d_txt; e_jsx; f_js_map] ∅).1
  = Resolved [ mkOutputFile "e.jsx" "T(<e/>)" false ].
Proof. vm_compute. reflexivity. Qed.
